(** * Log handlers of the web package (web/logs.go)

    A shallow embedding of the three HTTP handlers [downloadLogs],
    [fetchLogsBetweenDates] and [streamLogs].  A handler is a function
    from its inputs (the request, the response writer, the container
    client, the clock and the order of the ticks) to the ordered list of
    effects it performs: calls to the container client, operations on
    the [http.ResponseWriter], logger calls.  The HTTP response a client
    observes is computed from that list by [http.serve], following the
    rules of [net/http] (headers are frozen by the first [WriteHeader],
    [Write] or [Flush]; a write without [WriteHeader] implies status 200). *)

From Stdlib Require Import ZArith DecimalString Ascii String.
From stdpp Require Import gmap strings list.

Open Scope string_scope.
Open Scope Z_scope.
Open Scope list_scope.

(** ** Go values shared by the packages below *)

(** A newline; the escape [\n] of the Go string literals. *)
Definition LF : string := String "010"%char EmptyString.

(** The verb [%d] of [fmt] applied to an integer. *)
Definition fmt_d (x : Z) : string := NilZero.string_of_int (Z.to_int x).

(** Go's [error] values, compared with [==] by the handlers: the two
    sentinels [io.EOF] and [context.Canceled], and every other error,
    known only by its message. *)
Inductive error : Type :=
| io_EOF
| context_Canceled
| errorString (msg : string).

#[global] Instance error_eq_dec : EqDecision error.
Proof. solve_decision. Defined.

(** [err.Error()] *)
Definition Error (err : error) : string :=
  match err with
  | io_EOF => "EOF"
  | context_Canceled => "context canceled"
  | errorString msg => msg
  end.

(** A Go result pair [(v, err)]: [Ok v] when [err == nil]. *)
Inductive result (A : Type) : Type :=
| Ok (v : A)
| Err (err : error).
Arguments Ok {A} v.
Arguments Err {A} err.

(** ** Package time *)
Module time.

(** A [time.Time] as the civil date and time it shows in its location. *)
Record Time : Type := mkTime {
  Year : Z; Month : Z; Day : Z;
  Hour : Z; Minute : Z; Second_ : Z; Nanosecond : Z
}.

#[global] Instance Time_eq_dec : EqDecision Time.
Proof. solve_decision. Defined.

(** [time.Time{}]: January 1, year 1, 00:00:00 UTC. *)
Definition zero : Time := mkTime 1 1 1 0 0 0 0.

(** [time.Second], a [Duration] in nanoseconds. *)
Definition Second : Z := 1000000000.

(** [appendInt]: [x] in decimal, zero-padded to [width] digits, with a
    leading minus sign for a negative number. *)
Definition appendInt (x : Z) (width : nat) : string :=
  let digits := NilEmpty.string_of_uint (N.to_uint (Z.to_N (Z.abs x))) in
  let pad := String.concat "" (replicate (width - String.length digits)%nat "0") in
  (if x <? 0 then "-" else "") +:+ pad +:+ digits.

(** [t.Format("2006-01-02T15-04-05")] *)
Definition Format_2006_01_02T15_04_05 (t : Time) : string :=
  appendInt (Year t) 4 +:+ "-" +:+ appendInt (Month t) 2 +:+ "-" +:+
  appendInt (Day t) 2 +:+ "T" +:+ appendInt (Hour t) 2 +:+ "-" +:+
  appendInt (Minute t) 2 +:+ "-" +:+ appendInt (Second_ t) 2.

(** [time.Parse(layout, value)] returns the pair [(t, err)]; on every
    failure [t] is [Time{}].  The layout parser itself is a parameter:
    [parse value] is [Some t] exactly when [value] is accepted. *)
Definition Parse (parse : string -> option Time) (value : string)
  : Time * option error :=
  match parse value with
  | Some t => (t, None)
  | None => (zero, Some (errorString ("parsing time " +:+ value)))
  end.

End time.

(** ** Package docker (the container client; only its interface is used) *)
Module docker.

(** The fields of [docker.Container] the handlers read. *)
Record Container : Type := mkContainer {
  ID : string;
  Name : string;
  Tty : bool
}.

(** An [io.ReadCloser] over a raw log feed: the bytes it yields. *)
Definition Reader : Type := string.

(** [docker.StdType], a bit mask. *)
Definition StdType : Type := Z.

(** The client returned by [h.clientFromRequest(r)]. *)
Record Client : Type := mkClient {
  FindContainer : string -> result Container;
  ContainerLogs : string -> string -> StdType -> result Reader;
  ContainerLogsBetweenDates :
    string -> time.Time -> time.Time -> StdType -> result Reader
}.

End docker.

(** ** Package gzip *)
Module gzip.

(** The header fields of a [gzip.Writer] set by the download handler. *)
Record Header : Type := mkHeader {
  Name : string;
  Comment : string;
  ModTime : time.Time
}.

End gzip.

(** ** Package log (logrus) *)
Inductive Level : Type := ErrorLevel | DebugLevel.

#[global] Instance Level_eq_dec : EqDecision Level.
Proof. solve_decision. Defined.

(** ** Effects of a handler *)
Inductive effect : Type :=
(* calls to the container client and to the event generator *)
| call_FindContainer (id : string)
| call_ContainerLogs (id lastEventId : string) (stdTypes : docker.StdType)
| call_ContainerLogsBetweenDates
    (id : string) (from to : time.Time) (stdTypes : docker.StdType)
| call_NewEventGenerator (tty : bool)
(* the ticker *)
| NewTicker (d : Z)
| ticker_Stop
(* the response writer *)
| Header_Set (key value : string)
| Header_Add (key value : string)
| WriteHeader (code : Z)
| Write (p : string)
| Write_gzip (zw : gzip.Header) (p : string)
| Flush
(* the logger *)
| Log (level : Level) (msg : string).

Definition trace : Type := list effect.

(** ** Package net/http *)
Module http.

Definition StatusOK : Z := 200.
Definition StatusBadRequest : Z := 400.
Definition StatusNotFound : Z := 404.
Definition StatusInternalServerError : Z := 500.

(** *** Header keys *)

Definition is_upper (c : ascii) : bool :=
  let n := nat_of_ascii c in (65 <=? n)%nat && (n <=? 90)%nat.
Definition is_lower (c : ascii) : bool :=
  let n := nat_of_ascii c in (97 <=? n)%nat && (n <=? 122)%nat.
Definition is_digit (c : ascii) : bool :=
  let n := nat_of_ascii c in (48 <=? n)%nat && (n <=? 57)%nat.
Definition to_upper (c : ascii) : ascii :=
  if is_lower c then ascii_of_nat (nat_of_ascii c - 32) else c.
Definition to_lower (c : ascii) : ascii :=
  if is_upper c then ascii_of_nat (nat_of_ascii c + 32) else c.

(** [validHeaderFieldByte]: the token characters of RFC 7230. *)
Definition validHeaderFieldByte (c : ascii) : bool :=
  is_upper c || is_lower c || is_digit c ||
  bool_decide (c ∈ list_ascii_of_string "!#$%&'*+-.^_`|~").

Fixpoint canonical_go (upper : bool) (s : string) : string :=
  match s with
  | EmptyString => EmptyString
  | String c s' =>
      String (if upper then to_upper c else to_lower c)
             (canonical_go (bool_decide (c = "-"%char)) s')
  end.

(** [textproto.CanonicalMIMEHeaderKey]: the first letter and every letter
    after a hyphen in upper case, the others in lower case; a key with a
    byte that is not a token character is returned as it is. *)
Definition CanonicalMIMEHeaderKey (s : string) : string :=
  if forallb validHeaderFieldByte (list_ascii_of_string s)
  then canonical_go true s else s.

(** *** Requests *)

(** The parts of [*http.Request] the handlers read: the parsed query
    ([r.URL.Query()], a [url.Values]), the header (keys in canonical
    form) and the route parameters of chi. *)
Record Request : Type := mkRequest {
  Query : gmap string (list string);
  Header : gmap string (list string);
  URLParams : gmap string string
}.

(** [url.Values.Has] *)
Definition Values_Has (v : gmap string (list string)) (key : string) : bool :=
  bool_decide (is_Some (v !! key)).

(** [url.Values.Get]: the first value of the key, or the empty string. *)
Definition Values_Get (v : gmap string (list string)) (key : string) : string :=
  match v !! key with
  | Some (x :: _) => x
  | _ => ""
  end.

(** [http.Header.Get]: the first value under the canonical key. *)
Definition Header_Get (h : gmap string (list string)) (key : string) : string :=
  Values_Get h (CanonicalMIMEHeaderKey key).

(** [chi.URLParam] *)
Definition URLParam (r : Request) (key : string) : string :=
  default "" (URLParams r !! key).

(** *** Response writers *)

(** An [http.ResponseWriter]; [is_Flusher] tells whether its dynamic type
    also implements [http.Flusher]. *)
Record ResponseWriter : Type := mkResponseWriter {
  is_Flusher : bool
}.

(** [http.Error(w, msg, code)] *)
Definition Error (msg : string) (code : Z) : trace :=
  [ Header_Set "Content-Type" "text/plain; charset=utf-8";
    Header_Set "X-Content-Type-Options" "nosniff";
    WriteHeader code;
    Write (msg +:+ LF) ].

(** *** The response seen by the client *)

(** A piece of a response body.  [Gzip zw p] stands for the bytes of the
    gzip member sent by a writer whose header fields are [zw] and into
    which [p] was copied.  What gzip makes of the fields is not modelled:
    it stores the modification time as whole seconds, and fails on a name
    or comment with a NUL or a character above U+00FF. *)
Inductive chunk : Type :=
| Bytes (p : string)
| Gzip (zw : gzip.Header) (p : string).

Record Response : Type := mkResponse {
  Status : Z;
  ResponseHeader : gmap string (list string);
  Body : list chunk
}.

(** The state of the connection while a handler runs: the header map
    the handler edits, what was sent as status line and header (if it
    was), and the body so far. *)
Record conn : Type := mkConn {
  handlerHeader : gmap string (list string);
  wroteHeader : option (Z * gmap string (list string));
  written : list chunk
}.

Definition conn0 : conn := mkConn ∅ None [].

Definition commit (code : Z) (c : conn) : conn :=
  match wroteHeader c with
  | Some _ => c
  | None => mkConn (handlerHeader c) (Some (code, handlerHeader c)) (written c)
  end.

Definition add_chunk (k : chunk) (c : conn) : conn :=
  let c := commit StatusOK c in
  mkConn (handlerHeader c) (wroteHeader c) (written c ++ [k])%list.

Definition step (c : conn) (e : effect) : conn :=
  match e with
  | Header_Set k v =>
      mkConn (<[CanonicalMIMEHeaderKey k := [v]]> (handlerHeader c))
             (wroteHeader c) (written c)
  | Header_Add k v =>
      let k := CanonicalMIMEHeaderKey k in
      mkConn (<[k := (default [] (handlerHeader c !! k) ++ [v])%list]> (handlerHeader c))
             (wroteHeader c) (written c)
  | WriteHeader code => commit code c
  | Write p => add_chunk (Bytes p) c
  | Write_gzip zw p => add_chunk (Gzip zw p) c
  | Flush => commit StatusOK c
  | _ => c
  end.

(** The response produced by a handler that performed [t] and returned. *)
Definition serve (t : trace) : Response :=
  let c := commit StatusOK (fold_left step t conn0) in
  match wroteHeader c with
  | Some (code, h) => mkResponse code h (written c)
  | None => mkResponse StatusOK (handlerHeader c) (written c)
  end.

End http.

(** ** Observations on a trace *)

(** The byte strings passed to [w.Write], in order. *)
Fixpoint writes (t : trace) : list string :=
  match t with
  | [] => []
  | Write p :: t' => p :: writes t'
  | _ :: t' => writes t'
  end.

(** The feed-open calls: [ContainerLogs] and [ContainerLogsBetweenDates]. *)
Definition is_feed_open (e : effect) : bool :=
  match e with
  | call_ContainerLogs _ _ _ | call_ContainerLogsBetweenDates _ _ _ _ => true
  | _ => false
  end.

(** The calls to the container client and to the event generator. *)
Definition is_call (e : effect) : bool :=
  match e with
  | call_FindContainer _ | call_NewEventGenerator _ => true
  | _ => is_feed_open e
  end.

(** Something is sent to the client: the status line or body bytes. *)
Definition is_output (e : effect) : bool :=
  match e with
  | WriteHeader _ | Write _ | Write_gzip _ _ | Flush => true
  | _ => false
  end.

(** The messages logged at a level. *)
Fixpoint logged (l : Level) (t : trace) : list string :=
  match t with
  | [] => []
  | Log l' msg :: t' =>
      if decide (l' = l) then msg :: logged l t' else logged l t'
  | _ :: t' => logged l t'
  end.

(** ** Imported declarations

    What the handlers use from packages whose source is outside
    web/logs.go: the event type and the stream constants of package
    docker, the event generator, [json.Marshal], the RFC 3339 layout of
    [time.Parse] and [stdcopy.StdCopy]. *)

(** A [docker.EventGenerator] as its consumer sees it: the values received
    from [g.Events] before the channel is closed, and what a non-blocking
    receive from [g.Errors] finds after that: nothing ready ([None]), a
    nil value ([Some None]) or an error. *)
Record EventGenerator (LogEvent : Type) : Type := mkEventGenerator {
  Events : list LogEvent;
  Errors : option (option error)
}.
Arguments mkEventGenerator {LogEvent} Events Errors.
Arguments Events {LogEvent} _.
Arguments Errors {LogEvent} _.

Class Imports : Type := {
  (** [docker.LogEvent] and its field [Timestamp], an integer *)
  LogEvent : Type;
  Timestamp : LogEvent -> Z;
  (** [docker.STDOUT], [docker.STDERR], [docker.STDALL] *)
  STDOUT : docker.StdType;
  STDERR : docker.StdType;
  STDALL : docker.StdType;
  (** [docker.NewEventGenerator(reader, tty)] *)
  NewEventGenerator : docker.Reader -> bool -> EventGenerator LogEvent;
  (** [json.Marshal(event)] *)
  json_Marshal : LogEvent -> result string;
  (** the values accepted by [time.Parse(time.RFC3339, _)] *)
  parse_RFC3339 : string -> option time.Time;
  (** [stdcopy.StdCopy(dst, dst, reader)]: the bytes written to [dst] *)
  stdcopy_StdCopy : docker.Reader -> string
}.

(** ** Package web *)
Module web.

(** The handler: [h.clientFromRequest(r)] selects the container client. *)
Record handler : Type := mkHandler {
  clientFromRequest : http.Request -> docker.Client
}.

(** What a run of a handler reads from the process: [time.Now()] and
    [log.IsLevelEnabled(log.DebugLevel)]. *)
Record process : Type := mkProcess {
  time_Now : time.Time;
  debug_enabled : bool
}.

(** One case taken by the [select] of the streaming loop while [g.Events]
    is open. *)
Inductive selected (LogEvent : Type) : Type :=
| recv_event (event : LogEvent)
| recv_tick.
Arguments recv_event {LogEvent} event.
Arguments recv_tick {LogEvent}.

(** The order in which a [select] over [g.Events] and [ticker.C] takes its
    cases: [ticks !! i] ticks are received before the [i]-th receive on
    [g.Events] (the last receive being the one that finds it closed). *)
Fixpoint select_order {LogEvent : Type} (ticks : list nat) (events : list LogEvent)
  : list (selected LogEvent) :=
  replicate (hd 0%nat ticks) recv_tick ++
  match events with
  | [] => []
  | event :: events' => recv_event event :: select_order (tl ticks) events'
  end.

(** The ticks a ticker of period [d] has delivered [elapsed] nanoseconds
    after [time.NewTicker(d)], to a receiver that is always ready. *)
Definition ticks_after (d elapsed : Z) : nat := Z.to_nat (elapsed / d).

Section handlers.
Context {I : Imports}.

(** The mask built from the presence flags [stdout] and [stderr]. *)
Definition stdTypes_of (r : http.Request) : docker.StdType :=
  let stdTypes := 0 in
  let stdTypes :=
    if http.Values_Has (http.Query r) "stdout" then Z.lor stdTypes STDOUT else stdTypes in
  let stdTypes :=
    if http.Values_Has (http.Query r) "stderr" then Z.lor stdTypes STDERR else stdTypes in
  stdTypes.

(** *** downloadLogs *)

Definition downloadLogs (h : handler) (p : process) (r : http.Request) : trace :=
  let id := http.URLParam r "id" in
  call_FindContainer id ::
  match docker.FindContainer (clientFromRequest h r) id with
  | Err err => http.Error (Error err) http.StatusBadRequest
  | Ok container =>
      let now := time_Now p in
      Header_Set "Content-Disposition"
        ("attachment; filename=" +:+ docker.Name container +:+ "-" +:+
         time.Format_2006_01_02T15_04_05 now +:+ ".log.gz") ::
      Header_Set "Content-Type" "application/gzip" ::
      let zw := {|
        gzip.Name := docker.Name container +:+ "-" +:+
                     time.Format_2006_01_02T15_04_05 now +:+ ".log";
        gzip.Comment := "Logs generated by Dozzle";
        gzip.ModTime := now |} in
      (* [defer zw.Close()]: both exits below end by closing [zw], which
         sends the gzip member holding what was copied into it *)
      call_ContainerLogsBetweenDates id time.zero now STDALL ::
      match docker.ContainerLogsBetweenDates
              (clientFromRequest h r) id time.zero now STDALL with
      | Err err =>
          http.Error (Error err) http.StatusInternalServerError ++
          [Write_gzip zw ""]
      | Ok reader =>
          if docker.Tty container
          then [Write_gzip zw reader]
          else [Write_gzip zw (stdcopy_StdCopy reader)]
      end
  end.

(** *** fetchLogsBetweenDates *)

(** [json.NewEncoder(w).Encode(event)] and the handling of its error. *)
Definition range_event (event : LogEvent) : trace :=
  match json_Marshal event with
  | Ok buf => [Write (buf +:+ LF)]
  | Err err => [Log ErrorLevel ("json encoding error while streaming " +:+ Error err)]
  end.

Fixpoint range_loop (events : list LogEvent) : trace :=
  match events with
  | [] => []
  | event :: events' => range_event event ++ range_loop events'
  end.

Definition fetchLogsBetweenDates (h : handler) (r : http.Request) : trace :=
  Header_Set "Content-Type" "application/ld+json; charset=UTF-8" ::
  let from := fst (time.Parse parse_RFC3339 (http.Values_Get (http.Query r) "from")) in
  let to := fst (time.Parse parse_RFC3339 (http.Values_Get (http.Query r) "to")) in
  let id := http.URLParam r "id" in
  let stdTypes := stdTypes_of r in
  if stdTypes =? 0 then
    http.Error "stdout or stderr is required" http.StatusBadRequest
  else
    call_FindContainer id ::
    match docker.FindContainer (clientFromRequest h r) id with
    | Err err => http.Error (Error err) http.StatusNotFound
    | Ok container =>
        call_ContainerLogsBetweenDates (docker.ID container) from to stdTypes ::
        match docker.ContainerLogsBetweenDates
                (clientFromRequest h r) (docker.ID container) from to stdTypes with
        | Err err => http.Error (Error err) http.StatusInternalServerError
        | Ok reader =>
            call_NewEventGenerator (docker.Tty container) ::
            let g := NewEventGenerator reader (docker.Tty container) in
            range_loop (Events g)
        end
    end.

(** *** streamLogs *)

(** The frame written when the container has stopped. *)
Definition container_stopped : string :=
  "event: container-stopped" +:+ LF +:+ "data: end of stream" +:+ LF +:+ LF.

(** The period of the ticker. *)
Definition ping_period : Z := 5 * time.Second.

(** [case event, ok := <-g.Events] with [ok] *)
Definition stream_event (event : LogEvent) : trace :=
  (match json_Marshal event with
   | Err err => [Log ErrorLevel ("json encoding error while streaming " +:+ Error err)]
   | Ok buf => [Write ("data: " +:+ buf +:+ LF)]
   end ++
   (if 0 <? Timestamp event
    then [Write ("id: " +:+ fmt_d (Timestamp event) +:+ LF)]
    else []) ++
   [Write LF; Flush])%list.

(** [case <-ticker.C] *)
Definition stream_tick : trace := [Write (":ping " +:+ LF +:+ LF); Flush].

Definition stream_select (s : selected LogEvent) : trace :=
  match s with
  | recv_event event => stream_event event
  | recv_tick => stream_tick
  end.

(** The loop, run on the cases taken until [g.Events] is found closed. *)
Fixpoint stream_loop (order : list (selected LogEvent)) : trace :=
  match order with
  | [] => [Log DebugLevel "stream closed"]
  | s :: order' => (stream_select s ++ stream_loop order')%list
  end.

(** The [select] on [g.Errors] with a [default] case, after the loop. *)
Definition stream_closing (container : docker.Container)
    (pending : option (option error)) : trace :=
  match pending with
  | Some (Some err) =>
      if decide (err = io_EOF) then
        [ Log DebugLevel ("container stopped: " +:+ docker.ID container);
          Write container_stopped; Flush ]
      else if decide (err <> context_Canceled) then
        [ Log ErrorLevel ("unknown error while streaming " +:+ Error err) ]
      else []
  | Some None => []
  | None => []
  end.

Definition mem_stats (p : process) : trace :=
  if debug_enabled p then [Log DebugLevel "runtime mem stats"] else [].

(** The resume position read from the request. *)
Definition lastEventId_of (r : http.Request) : string :=
  let lastEventId := http.Header_Get (http.Header r) "Last-Event-ID" in
  let lastEventId :=
    if (0 <? String.length (http.Values_Get (http.Query r) "lastEventId"))%nat
    then http.Values_Get (http.Query r) "lastEventId"
    else lastEventId in
  lastEventId.

Definition streamLogs (h : handler) (p : process) (w : http.ResponseWriter)
    (ticks : list nat) (r : http.Request) : trace :=
  let id := http.URLParam r "id" in
  let stdTypes := stdTypes_of r in
  if stdTypes =? 0 then
    http.Error "stdout or stderr is required" http.StatusBadRequest
  else if negb (http.is_Flusher w) then
    http.Error "Streaming unsupported!" http.StatusInternalServerError
  else
    call_FindContainer id ::
    match docker.FindContainer (clientFromRequest h r) id with
    | Err err => http.Error (Error err) http.StatusNotFound
    | Ok container =>
        Header_Set "Content-Type" "text/event-stream" ::
        Header_Set "Cache-Control" "no-transform" ::
        Header_Add "Cache-Control" "no-cache" ::
        Header_Set "Connection" "keep-alive" ::
        Header_Set "X-Accel-Buffering" "no" ::
        let lastEventId := lastEventId_of r in
        call_ContainerLogs (docker.ID container) lastEventId stdTypes ::
        match docker.ContainerLogs
                (clientFromRequest h r) (docker.ID container) lastEventId stdTypes with
        | Err err =>
            if decide (err = io_EOF)
            then [Write container_stopped; Flush]
            else http.Error (Error err) http.StatusInternalServerError
        | Ok reader =>
            (NewTicker ping_period ::
             (* [defer ticker.Stop()] *)
             call_NewEventGenerator (docker.Tty container) ::
             let g := NewEventGenerator reader (docker.Tty container) in
             stream_loop (select_order ticks (Events g)) ++
             stream_closing container (Errors g) ++
             mem_stats p ++
             [ticker_Stop])%list
        end
    end.

End handlers.

(** The effects of [streamLogs] up to the feed-open call, for a valid
    request on a known container. *)
Definition stream_prelude {I : Imports} (r : http.Request)
    (container : docker.Container) : trace :=
  [ call_FindContainer (http.URLParam r "id");
    Header_Set "Content-Type" "text/event-stream";
    Header_Set "Cache-Control" "no-transform";
    Header_Add "Cache-Control" "no-cache";
    Header_Set "Connection" "keep-alive";
    Header_Set "X-Accel-Buffering" "no";
    call_ContainerLogs (docker.ID container) (lastEventId_of r)
      (stdTypes_of r) ].

(** The position argument of the first [ContainerLogs] call of a trace. *)
Fixpoint feed_position (t : trace) : option string :=
  match t with
  | [] => None
  | call_ContainerLogs _ lastEventId _ :: _ => Some lastEventId
  | _ :: t' => feed_position t'
  end.

(** The names in the headers of the gzip members of a response body. *)
Fixpoint gzip_names (b : list http.chunk) : list string :=
  match b with
  | [] => []
  | http.Gzip zw _ :: b' => gzip.Name zw :: gzip_names b'
  | _ :: b' => gzip_names b'
  end.

(** *** Frames and positions as the specification words them, for comparison *)

(** An event frame: the data line, preceded by the id line when the
    position is not zero, and a blank line. *)
Definition spec_event_frame (json : string) (position : Z) : string :=
  (if position =? 0 then "" else "id: " +:+ fmt_d position +:+ LF) +:+
  "data: " +:+ json +:+ LF +:+ LF.

(** The liveness frame. *)
Definition spec_ping_frame : string := ": ping " +:+ LF +:+ LF.

(** The resume position: the header when it is there, else the query
    parameter when it is there, else now ([None]). *)
Definition spec_resume_position (r : http.Request) : option string :=
  match http.Header r !! "Last-Event-Id" with
  | Some (v :: _) => Some v
  | _ =>
      match http.Query r !! "lastEventId" with
      | Some (v :: _) => Some v
      | _ => None
      end
  end.

End web.

(** ** Sample inputs *)
Module sample.

(** An event that carries its timestamp and the outcome of its encoding. *)
Record event : Type := mkEvent {
  ts : Z;
  encoded : result string
}.

Definition hello : event := mkEvent 5 (Ok "{}").
Definition plain : event := mkEvent 0 (Ok "{}").
Definition bad : event := mkEvent 7 (Err (errorString "unsupported value")).

Definition imports : Imports := {|
  LogEvent := event;
  Timestamp := ts;
  STDOUT := 1;
  STDERR := 2;
  STDALL := 3;
  NewEventGenerator := fun reader _ =>
    if decide (reader = "") then mkEventGenerator [] None
    else mkEventGenerator [hello; bad; plain] (Some (Some io_EOF));
  json_Marshal := encoded;
  parse_RFC3339 := fun _ => None;
  stdcopy_StdCopy := fun reader => reader
|}.

Definition web1 : docker.Container := docker.mkContainer "abc" "web" true.

(** A client that knows one running container. *)
Definition running : docker.Client := {|
  docker.FindContainer := fun id =>
    if decide (id = "abc") then Ok web1
    else Err (errorString "Unable to find container");
  docker.ContainerLogs := fun _ lastEventId _ =>
    if decide (lastEventId = "") then Ok "" else Ok "raw feed";
  docker.ContainerLogsBetweenDates := fun _ _ _ _ => Ok "raw feed"
|}.

(** A client whose container has stopped, and whose range feed fails. *)
Definition stopped : docker.Client := {|
  docker.FindContainer := fun _ => Ok web1;
  docker.ContainerLogs := fun _ _ _ => Err io_EOF;
  docker.ContainerLogsBetweenDates := fun _ _ _ _ =>
    Err (errorString "connection refused")
|}.

Definition h_running : web.handler := web.mkHandler (fun _ => running).
Definition h_stopped : web.handler := web.mkHandler (fun _ => stopped).

Definition proc : web.process :=
  web.mkProcess (time.mkTime 2023 4 9 7 5 3 0) false.

Definition flusher : http.ResponseWriter := http.mkResponseWriter true.

(** [GET /containers/abc/logs/...?stdout&lastEventId=20] with the header
    [Last-Event-ID: 10]. *)
Definition resume : http.Request := {|
  http.Query := {[ "stdout" := [""]; "lastEventId" := ["20"] ]};
  http.Header := {[ "Last-Event-Id" := ["10"] ]};
  http.URLParams := {[ "id" := "abc" ]}
|}.

(** [GET /containers/abc/logs/...?stdout&stderr&from=yesterday] *)
Definition both : http.Request := {|
  http.Query := {[ "stdout" := [""]; "stderr" := [""]; "from" := ["yesterday"] ]};
  http.Header := ∅;
  http.URLParams := {[ "id" := "abc" ]}
|}.

(** [GET /containers/abc/logs/...] with no stream flag. *)
Definition no_mask : http.Request := {|
  http.Query := {[ "from" := ["2023-04-09T07:05:03Z"] ]};
  http.Header := ∅;
  http.URLParams := {[ "id" := "abc" ]}
|}.

(** [GET /containers/nope/logs/download] *)
Definition unknown : http.Request := {|
  http.Query := ∅;
  http.Header := ∅;
  http.URLParams := {[ "id" := "nope" ]}
|}.

End sample.

(** ** Further observations *)

(** Writes, flushes and logger calls: the effects of the loops. *)
Definition is_io (e : effect) : bool :=
  match e with
  | Write _ | Flush | Log _ _ => true
  | _ => false
  end.

(** Effects that leave the header map and the status line alone, unless
    they send the first bytes. *)
Definition keeps_header (e : effect) : bool :=
  match e with
  | Header_Set _ _ | Header_Add _ _ | WriteHeader _ => false
  | _ => true
  end.

Definition is_NewTicker (e : effect) : bool :=
  match e with NewTicker _ => true | _ => false end.

Definition is_ticker_Stop (e : effect) : bool :=
  match e with ticker_Stop => true | _ => false end.

Definition is_Flush (e : effect) : bool :=
  match e with Flush => true | _ => false end.

(** The writes of [t] that no [Flush] follows, after the pending ones [acc]. *)
Definition unflushed_from (acc : list string) (t : trace) : list string :=
  fold_left
    (fun acc e =>
       match e with
       | Write p => acc ++ [p]
       | Flush => []
       | _ => acc
       end) t acc.

Definition unflushed (t : trace) : list string := unflushed_from [] t.

(** The order of the calls of a handler: nothing, or the container lookup,
    then at most one feed-open call, then at most one event generator. *)
Definition call_order_ok (calls : trace) : bool :=
  match calls with
  | [] => true
  | [call_FindContainer _] => true
  | [call_FindContainer _; open] => is_feed_open open
  | [call_FindContainer _; open; call_NewEventGenerator _] => is_feed_open open
  | _ => false
  end.

(** The bytes of the ping frame, and the test that a write is not one. *)
Definition ping_frame : string := ":ping " +:+ LF +:+ LF.

Definition not_ping (p : string) : bool := negb (String.eqb p ping_frame).

(** The lines of the range endpoint: one per event that encodes. *)
Definition encoded_lines {I : Imports} (events : list LogEvent) : list string :=
  omap (fun event =>
          match json_Marshal event with
          | Ok buf => Some (buf +:+ LF)
          | Err _ => None
          end) events.

(** The log messages of the range endpoint: one per event that does not. *)
Definition encoding_failures {I : Imports} (events : list LogEvent) : list string :=
  omap (fun event =>
          match json_Marshal event with
          | Ok _ => None
          | Err err => Some ("json encoding error while streaming " +:+ Error err)
          end) events.

(** The lines of a live stream that carry an event and a position. *)
Definition is_data_line (p : string) : bool := String.prefix "data: " p.

Definition is_id_line (p : string) : bool := String.prefix "id: " p.

(** The id lines of the events whose timestamp is greater than zero. *)
Definition id_lines {I : Imports} (events : list LogEvent) : list string :=
  omap (fun event =>
          if 0 <? Timestamp event
          then Some ("id: " +:+ fmt_d (Timestamp event) +:+ LF)
          else None) events.

(** The payloads and the comments of the gzip members of a response body. *)
Fixpoint gzip_payloads (b : list http.chunk) : list string :=
  match b with
  | [] => []
  | http.Gzip _ p :: b' => p :: gzip_payloads b'
  | _ :: b' => gzip_payloads b'
  end.

Fixpoint gzip_comments (b : list http.chunk) : list string :=
  match b with
  | [] => []
  | http.Gzip zw _ :: b' => gzip.Comment zw :: gzip_comments b'
  | _ :: b' => gzip_comments b'
  end.

(** A header string that gzip writes as it is: bytes from 0x01 to 0x7F
    only.  (The writer also takes the characters up to U+00FF, which it
    converts, and returns an error for any other.) *)
Definition gzip_accepts (s : string) : bool :=
  forallb (fun c => (1 <=? nat_of_ascii c)%nat && (nat_of_ascii c <=? 127)%nat)
          (list_ascii_of_string s).

(** The header of a response of the live stream. *)
Definition stream_header : gmap string (list string) :=
  {[ "Content-Type" := ["text/event-stream"];
     "Cache-Control" := ["no-transform"; "no-cache"];
     "Connection" := ["keep-alive"];
     "X-Accel-Buffering" := ["no"] ]}.

(** The header left by [http.Error] on a fresh header map. *)
Definition error_header : gmap string (list string) :=
  {[ "Content-Type" := ["text/plain; charset=utf-8"];
     "X-Content-Type-Options" := ["nosniff"] ]}.

(** Why a call to the container client fails. *)
Inductive failure : Type :=
| unknown_container
| transport_failure.

(** The error the client returns for a failure. *)
Definition failure_error (f : failure) : error :=
  match f with
  | unknown_container => errorString "No such container"
  | transport_failure => errorString "Cannot connect to the Docker daemon"
  end.

(** The status of a failed download as the specification words it: 400 for
    an unknown container, 500 for a transport failure. *)
Definition spec_download_status (f : failure) : Z :=
  match f with
  | unknown_container => 400
  | transport_failure => 500
  end.

(** ** Further sample inputs *)
Module scenario.

(** A generator that ends at once with [io.EOF]. *)
Definition ended : Imports := {|
  LogEvent := sample.event;
  Timestamp := sample.ts;
  STDOUT := 1;
  STDERR := 2;
  STDALL := 3;
  NewEventGenerator := fun _ _ => mkEventGenerator [] (Some (Some io_EOF));
  json_Marshal := sample.encoded;
  parse_RFC3339 := fun _ => None;
  stdcopy_StdCopy := fun reader => reader
|}.

Definition web2 : docker.Container := docker.mkContainer "def" "db" false.

(** A client whose feeds cannot be opened. *)
Definition refused : docker.Client := {|
  docker.FindContainer := fun id =>
    if decide (id = "abc") then Ok web2
    else Err (errorString "Unable to find container");
  docker.ContainerLogs := fun _ _ _ => Err (errorString "connection refused");
  docker.ContainerLogsBetweenDates := fun _ _ _ _ =>
    Err (errorString "connection refused")
|}.

Definition h_refused : web.handler := web.mkHandler (fun _ => refused).

(** A response writer that cannot flush. *)
Definition buffered : http.ResponseWriter := http.mkResponseWriter false.

(** [GET /containers/nope/logs?stderr=0] *)
Definition stderr_only : http.Request := {|
  http.Query := {[ "stderr" := ["0"] ]};
  http.Header := ∅;
  http.URLParams := {[ "id" := "nope" ]}
|}.

(** A client whose container lookup fails for the given reason. *)
Definition failing_lookup (f : failure) : docker.Client := {|
  docker.FindContainer := fun _ => Err (failure_error f);
  docker.ContainerLogs := fun _ _ _ => Ok "raw feed";
  docker.ContainerLogsBetweenDates := fun _ _ _ _ => Ok "raw feed"
|}.

(** A client that finds the container but whose feed-open calls fail for
    the given reason (the container is removed after the lookup, or the
    connection is lost). *)
Definition failing_open (f : failure) : docker.Client := {|
  docker.FindContainer := fun _ => Ok sample.web1;
  docker.ContainerLogs := fun _ _ _ => Err (failure_error f);
  docker.ContainerLogsBetweenDates := fun _ _ _ _ => Err (failure_error f)
|}.

Definition h_failing_lookup (f : failure) : web.handler :=
  web.mkHandler (fun _ => failing_lookup f).

Definition h_failing_open (f : failure) : web.handler :=
  web.mkHandler (fun _ => failing_open f).

End scenario.

(** ** Properties of the observations *)

Lemma writes_app (t1 t2 : trace) : writes (t1 ++ t2) = writes t1 ++ writes t2.
Proof.
  induction t1 as [|e t1 IH]; [reflexivity|].
  destruct e; simpl; rewrite IH; reflexivity.
Qed.

Lemma logged_app (l : Level) (t1 t2 : trace) :
  logged l (t1 ++ t2) = logged l t1 ++ logged l t2.
Proof.
  induction t1 as [|e t1 IH]; [reflexivity|].
  destruct e; simpl; try exact IH.
  destruct (decide (level = l)); simpl; rewrite IH; reflexivity.
Qed.

(** Once the status line is sent, nothing changes it. *)
Lemma step_wroteHeader (c : http.conn) (e : effect) x :
  http.wroteHeader c = Some x -> http.wroteHeader (http.step c e) = Some x.
Proof.
  intros Hc. destruct e; simpl; try exact Hc;
    unfold http.add_chunk, http.commit; rewrite Hc; simpl; exact Hc.
Qed.

Lemma fold_wroteHeader (t : trace) (c : http.conn) x :
  http.wroteHeader c = Some x ->
  http.wroteHeader (fold_left http.step t c) = Some x.
Proof.
  revert c. induction t as [|e t IH]; intros c Hc; [exact Hc|].
  simpl. apply IH, step_wroteHeader, Hc.
Qed.

(** Effects that send nothing leave the status line unsent. *)
Lemma fold_silent (t : trace) (c : http.conn) :
  forallb (fun e => negb (is_output e)) t = true ->
  http.wroteHeader c = None ->
  http.wroteHeader (fold_left http.step t c) = None.
Proof.
  revert c. induction t as [|e t IH]; intros c Ht Hc; [exact Hc|].
  simpl in Ht. apply andb_prop in Ht as [He Ht].
  simpl. apply IH; [exact Ht|].
  destruct e; simpl in *; try exact Hc; discriminate.
Qed.

(** The status of a response is the code of the first [WriteHeader] when
    nothing is sent before it. *)
Lemma serve_status (pre post : trace) (code : Z) :
  forallb (fun e => negb (is_output e)) pre = true ->
  http.Status (http.serve (pre ++ WriteHeader code :: post)) = code.
Proof.
  intros Hpre. unfold http.serve.
  rewrite fold_left_app. simpl.
  pose proof (fold_silent pre http.conn0 Hpre eq_refl) as Hnone.
  set (c := fold_left http.step pre http.conn0) in *.
  assert (Hw : http.wroteHeader (http.commit code c)
               = Some (code, http.handlerHeader c)).
  { unfold http.commit. rewrite Hnone. reflexivity. }
  pose proof (fold_wroteHeader post _ _ Hw) as Hfold.
  unfold http.commit at 1. rewrite Hfold. simpl. rewrite Hfold. reflexivity.
Qed.

(** A request without the flags [stdout] and [stderr] has the empty mask,
    whatever the values of the two constants. *)
Lemma stdTypes_of_no_flag {I : Imports} (r : http.Request) :
  http.Values_Has (http.Query r) "stdout" = false ->
  http.Values_Has (http.Query r) "stderr" = false ->
  web.stdTypes_of r = 0.
Proof.
  intros Hout Herr. unfold web.stdTypes_of. rewrite Hout, Herr. reflexivity.
Qed.

(** ** The empty stream-selection mask *)

(** C2: a request to the streaming endpoint or to the range endpoint that
    has neither the [stdout] nor the [stderr] flag is answered with status
    400, and the handler returns without any call to the container client
    or to the event generator: no container lookup, no feed opened. *)
Theorem empty_mask_rejected {I : Imports}
    (h : web.handler) (p : web.process) (w : http.ResponseWriter)
    (ticks : list nat) (r : http.Request) :
  http.Values_Has (http.Query r) "stdout" = false ->
  http.Values_Has (http.Query r) "stderr" = false ->
  (http.Status (http.serve (web.streamLogs h p w ticks r)) = http.StatusBadRequest /\
   filter is_call (web.streamLogs h p w ticks r) = []) /\
  (http.Status (http.serve (web.fetchLogsBetweenDates h r)) = http.StatusBadRequest /\
   filter is_call (web.fetchLogsBetweenDates h r) = []).
Proof.
  intros Hout Herr.
  pose proof (stdTypes_of_no_flag r Hout Herr) as Hmask.
  unfold web.streamLogs, web.fetchLogsBetweenDates.
  rewrite Hmask. simpl. split; split; reflexivity.
Qed.

Lemma empty_mask_rejected_witness :
  (http.Status (http.serve
     (web.streamLogs (I := sample.imports) sample.h_running sample.proc
        sample.flusher [] sample.no_mask)) = 400 /\
   filter is_call
     (web.streamLogs (I := sample.imports) sample.h_running sample.proc
        sample.flusher [] sample.no_mask) = []) /\
  (http.Status (http.serve
     (web.fetchLogsBetweenDates (I := sample.imports) sample.h_running
        sample.no_mask)) = 400 /\
   filter is_call
     (web.fetchLogsBetweenDates (I := sample.imports) sample.h_running
        sample.no_mask) = []).
Proof.
  apply (empty_mask_rejected (I := sample.imports)); vm_compute; reflexivity.
Defined.

(** ** The live stream *)

Section stream.
Context {I : Imports}.
Variables (h : web.handler) (p : web.process) (w : http.ResponseWriter).
Variables (ticks : list nat) (r : http.Request) (container : docker.Container).
Hypothesis mask : web.stdTypes_of r <> 0.
Hypothesis flusher : http.is_Flusher w = true.
Hypothesis found :
  docker.FindContainer (web.clientFromRequest h r) (http.URLParam r "id")
  = Ok container.

Lemma streamLogs_opening :
  web.streamLogs h p w ticks r =
  web.stream_prelude r container ++
  match docker.ContainerLogs (web.clientFromRequest h r) (docker.ID container)
          (web.lastEventId_of r) (web.stdTypes_of r) with
  | Err err =>
      if decide (err = io_EOF)
      then [Write web.container_stopped; Flush]
      else http.Error (Error err) http.StatusInternalServerError
  | Ok reader =>
      NewTicker web.ping_period ::
      call_NewEventGenerator (docker.Tty container) ::
      web.stream_loop
        (web.select_order ticks
           (Events (NewEventGenerator reader (docker.Tty container)))) ++
      web.stream_closing container
        (Errors (NewEventGenerator reader (docker.Tty container))) ++
      web.mem_stats p ++ [ticker_Stop]
  end.
Proof.
  unfold web.streamLogs.
  apply Z.eqb_neq in mask. rewrite mask, flusher, found. reflexivity.
Qed.

Lemma streamLogs_streaming (reader : docker.Reader) :
  docker.ContainerLogs (web.clientFromRequest h r) (docker.ID container)
    (web.lastEventId_of r) (web.stdTypes_of r) = Ok reader ->
  web.streamLogs h p w ticks r =
  web.stream_prelude r container ++
  NewTicker web.ping_period ::
  call_NewEventGenerator (docker.Tty container) ::
  web.stream_loop
    (web.select_order ticks
       (Events (NewEventGenerator reader (docker.Tty container)))) ++
  web.stream_closing container
    (Errors (NewEventGenerator reader (docker.Tty container))) ++
  web.mem_stats p ++ [ticker_Stop].
Proof. intros Hopen. rewrite streamLogs_opening, Hopen. reflexivity. Qed.

End stream.

(** The loop performs the effects of the cases it takes, in order, and
    logs the closing of the stream. *)
Lemma stream_loop_steps {I : Imports} (order : list (web.selected LogEvent)) :
  web.stream_loop order =
  concat (map web.stream_select order) ++ [Log DebugLevel "stream closed"].
Proof.
  induction order as [|s order IH]; [reflexivity|].
  simpl. rewrite IH, app_assoc. reflexivity.
Qed.

Lemma stream_loop_app {I : Imports} (pre post : list (web.selected LogEvent)) :
  web.stream_loop (pre ++ post) =
  concat (map web.stream_select pre) ++ web.stream_loop post.
Proof.
  induction pre as [|s pre IH]; [reflexivity|].
  simpl. rewrite IH, app_assoc. reflexivity.
Qed.

Lemma range_loop_app {I : Imports} (pre post : list LogEvent) :
  web.range_loop (pre ++ post) = web.range_loop pre ++ web.range_loop post.
Proof.
  induction pre as [|e pre IH]; [reflexivity|].
  simpl. rewrite IH, app_assoc. reflexivity.
Qed.

Lemma writes_mem_stats (p : web.process) : writes (web.mem_stats p) = [].
Proof. unfold web.mem_stats. destruct (web.debug_enabled p); reflexivity. Qed.

Lemma logged_error_mem_stats (p : web.process) :
  logged ErrorLevel (web.mem_stats p) = [].
Proof. unfold web.mem_stats. destruct (web.debug_enabled p); reflexivity. Qed.

(** What the final [select] writes and logs as an error. *)
Lemma stream_closing_cases {I : Imports} (container : docker.Container)
    (pending : option (option error)) :
  writes (web.stream_closing container pending) =
    match pending with
    | Some (Some io_EOF) => [web.container_stopped]
    | _ => []
    end /\
  logged ErrorLevel (web.stream_closing container pending) =
    match pending with
    | Some (Some (errorString msg)) => ["unknown error while streaming " +:+ msg]
    | _ => []
    end.
Proof.
  destruct pending as [[[| |msg]|]|]; split; reflexivity.
Qed.

(** C1: once [streamLogs] has started the event generator, what it writes
    to the client is, for each case its loop takes, the frame of that case:
    the bytes [:ping \n\n] for a tick and, for an event, the line
    [data: <json>] (when the event encodes), the line [id: <timestamp>]
    (when the timestamp is greater than zero) and an empty line; after
    these comes the frame [event: container-stopped\ndata: end of
    stream\n\n], exactly when the error pending on [g.Errors] after the loop
    is [io.EOF].  Any other pending error except [context.Canceled] is
    logged as an error and writes nothing; [context.Canceled], a nil value
    and an empty channel write nothing and log no error. *)
Theorem stream_closing_output {I : Imports}
    (h : web.handler) (p : web.process) (w : http.ResponseWriter)
    (ticks : list nat) (r : http.Request)
    (container : docker.Container) (reader : docker.Reader) :
  web.stdTypes_of r <> 0 ->
  http.is_Flusher w = true ->
  docker.FindContainer (web.clientFromRequest h r) (http.URLParam r "id")
    = Ok container ->
  docker.ContainerLogs (web.clientFromRequest h r) (docker.ID container)
    (web.lastEventId_of r) (web.stdTypes_of r) = Ok reader ->
  let g := NewEventGenerator reader (docker.Tty container) in
  let order := web.select_order ticks (Events g) in
  let frame (s : web.selected LogEvent) : list string :=
    match s with
    | web.recv_tick => [":ping " +:+ LF +:+ LF]
    | web.recv_event event =>
        match json_Marshal event with
        | Ok buf => ["data: " +:+ buf +:+ LF]
        | Err _ => []
        end ++
        (if 0 <? Timestamp event
         then ["id: " +:+ fmt_d (Timestamp event) +:+ LF]
         else []) ++
        [LF]
    end in
  let failure (s : web.selected LogEvent) : list string :=
    match s with
    | web.recv_tick => []
    | web.recv_event event =>
        match json_Marshal event with
        | Ok _ => []
        | Err err => ["json encoding error while streaming " +:+ Error err]
        end
    end in
  writes (web.streamLogs h p w ticks r) =
    concat (map frame order) ++
    match Errors g with
    | Some (Some io_EOF) =>
        ["event: container-stopped" +:+ LF +:+ "data: end of stream" +:+ LF +:+ LF]
    | _ => []
    end /\
  logged ErrorLevel (web.streamLogs h p w ticks r) =
    concat (map failure order) ++
    match Errors g with
    | Some (Some (errorString msg)) => ["unknown error while streaming " +:+ msg]
    | _ => []
    end.
Proof.
  intros Hmask Hflush Hfound Hopen g order frame failure.
  rewrite (streamLogs_streaming h p w ticks r container Hmask Hflush Hfound reader Hopen).
  fold g. fold order. rewrite stream_loop_steps.
  destruct (stream_closing_cases container (Errors g)) as [Hw Hl].
  assert (Hframes : forall o : list (web.selected LogEvent),
            writes (concat (map web.stream_select o)) = concat (map frame o)).
  { induction o as [|s o IH]; [reflexivity|].
    simpl. rewrite writes_app, IH. f_equal.
    destruct s as [event|]; [|reflexivity].
    unfold frame. simpl. unfold web.stream_event.
    destruct (json_Marshal event), (0 <? Timestamp event); reflexivity. }
  assert (Hfailures : forall o : list (web.selected LogEvent),
            logged ErrorLevel (concat (map web.stream_select o))
            = concat (map failure o)).
  { induction o as [|s o IH]; [reflexivity|].
    simpl. rewrite logged_app, IH. f_equal.
    destruct s as [event|]; [|reflexivity].
    unfold failure. simpl. unfold web.stream_event.
    destruct (json_Marshal event), (0 <? Timestamp event); reflexivity. }
  split.
  - rewrite writes_app.
    change (writes (web.stream_prelude r container)) with (@nil string).
    change (writes (NewTicker _ :: call_NewEventGenerator _ :: ?t)) with (writes t).
    rewrite !writes_app, Hw, writes_mem_stats, Hframes. simpl.
    rewrite !app_nil_r. reflexivity.
  - rewrite logged_app.
    change (logged ErrorLevel (web.stream_prelude r container)) with (@nil string).
    change (logged ErrorLevel (NewTicker _ :: call_NewEventGenerator _ :: ?t))
      with (logged ErrorLevel t).
    rewrite !logged_app, Hl, logged_error_mem_stats, Hfailures. simpl.
    rewrite !app_nil_r. reflexivity.
Qed.

Lemma stream_closing_output_witness :
  let t := web.streamLogs (I := sample.imports) sample.h_running sample.proc
             sample.flusher [1; 0; 0; 2]%nat sample.resume in
  writes t =
    [ ":ping " +:+ LF +:+ LF;
      "data: {}" +:+ LF; "id: 5" +:+ LF; LF;
      "id: 7" +:+ LF; LF;
      "data: {}" +:+ LF; LF;
      ":ping " +:+ LF +:+ LF;
      ":ping " +:+ LF +:+ LF;
      "event: container-stopped" +:+ LF +:+ "data: end of stream" +:+ LF +:+ LF ] /\
  logged ErrorLevel t =
    ["json encoding error while streaming unsupported value"].
Proof.
  apply (stream_closing_output (I := sample.imports) sample.h_running sample.proc
           sample.flusher [1; 0; 0; 2]%nat sample.resume sample.web1 "raw feed").
  - vm_compute. discriminate.
  - reflexivity.
  - vm_compute. reflexivity.
  - vm_compute. reflexivity.
Defined.

(** C5: when the feed-open call of [streamLogs] reports [io.EOF] (the
    container has stopped), the handler answers 200 and writes exactly one
    frame, the container-stopped frame, flushes it and returns: no ticker
    is created, no event generator is started, nothing is logged. *)
Theorem stream_already_stopped {I : Imports}
    (h : web.handler) (p : web.process) (w : http.ResponseWriter)
    (ticks : list nat) (r : http.Request) (container : docker.Container) :
  web.stdTypes_of r <> 0 ->
  http.is_Flusher w = true ->
  docker.FindContainer (web.clientFromRequest h r) (http.URLParam r "id")
    = Ok container ->
  docker.ContainerLogs (web.clientFromRequest h r) (docker.ID container)
    (web.lastEventId_of r) (web.stdTypes_of r) = Err io_EOF ->
  web.streamLogs h p w ticks r =
    web.stream_prelude r container ++ [Write web.container_stopped; Flush] /\
  writes (web.streamLogs h p w ticks r) =
    ["event: container-stopped" +:+ LF +:+ "data: end of stream" +:+ LF +:+ LF] /\
  http.Status (http.serve (web.streamLogs h p w ticks r)) = http.StatusOK /\
  (forall tty, ~ In (call_NewEventGenerator tty) (web.streamLogs h p w ticks r)) /\
  (forall d, ~ In (NewTicker d) (web.streamLogs h p w ticks r)).
Proof.
  intros Hmask Hflush Hfound Hopen.
  rewrite (streamLogs_opening h p w ticks r container Hmask Hflush Hfound), Hopen.
  simpl. repeat split.
  - intros tty Hin. repeat (destruct Hin as [Heq|Hin]; [discriminate Heq|]). exact Hin.
  - intros d Hin. repeat (destruct Hin as [Heq|Hin]; [discriminate Heq|]). exact Hin.
Qed.

Lemma stream_already_stopped_witness :
  let t := web.streamLogs (I := sample.imports) sample.h_stopped sample.proc
             sample.flusher [] sample.both in
  t = web.stream_prelude (I := sample.imports) sample.both sample.web1 ++
      [Write web.container_stopped; Flush] /\
  writes t =
    ["event: container-stopped" +:+ LF +:+ "data: end of stream" +:+ LF +:+ LF] /\
  http.Status (http.serve t) = 200 /\
  (forall tty, ~ In (call_NewEventGenerator tty) t) /\
  (forall d, ~ In (NewTicker d) t).
Proof.
  apply (stream_already_stopped (I := sample.imports) sample.h_stopped sample.proc
           sample.flusher [] sample.both sample.web1).
  - vm_compute. discriminate.
  - reflexivity.
  - reflexivity.
  - reflexivity.
Defined.

(** ** The download endpoint *)

(** Against C8 as worded: the status of a failed download follows the call
    that failed, not the cause.  A feed-open call that fails because the
    container is unknown is answered 500, and a lookup that fails on the
    transport is answered 400. *)
Lemma download_status_by_call_site :
  (docker.ContainerLogsBetweenDates
     (web.clientFromRequest (scenario.h_failing_open unknown_container) sample.unknown)
     "nope" time.zero (web.time_Now sample.proc) 3
   = Err (failure_error unknown_container) /\
   http.Status (http.serve
     (web.downloadLogs (I := sample.imports)
        (scenario.h_failing_open unknown_container) sample.proc sample.unknown))
   = 500 /\
   http.Status (http.serve
     (web.downloadLogs (I := sample.imports)
        (scenario.h_failing_open unknown_container) sample.proc sample.unknown))
   <> spec_download_status unknown_container) /\
  (docker.FindContainer
     (web.clientFromRequest (scenario.h_failing_lookup transport_failure) sample.unknown)
     "nope"
   = Err (failure_error transport_failure) /\
   http.Status (http.serve
     (web.downloadLogs (I := sample.imports)
        (scenario.h_failing_lookup transport_failure) sample.proc sample.unknown))
   = 400 /\
   http.Status (http.serve
     (web.downloadLogs (I := sample.imports)
        (scenario.h_failing_lookup transport_failure) sample.proc sample.unknown))
   <> spec_download_status transport_failure).
Proof.
  repeat split; vm_compute; discriminate.
Qed.

(** C8 (amended): in [downloadLogs], a failed container lookup is answered
    with status 400 and a failed feed-open call with status 500, whatever
    the error either call returns; in both cases the [WriteHeader] with
    that code comes before anything else is sent to the client. *)
Theorem download_error_status {I : Imports}
    (h : web.handler) (p : web.process) (r : http.Request) (code : Z) :
  (exists err,
     docker.FindContainer (web.clientFromRequest h r) (http.URLParam r "id")
       = Err err /\ code = http.StatusBadRequest) \/
  (exists container err,
     docker.FindContainer (web.clientFromRequest h r) (http.URLParam r "id")
       = Ok container /\
     docker.ContainerLogsBetweenDates (web.clientFromRequest h r)
       (http.URLParam r "id") time.zero (web.time_Now p) STDALL = Err err /\
     code = http.StatusInternalServerError) ->
  http.Status (http.serve (web.downloadLogs h p r)) = code /\
  exists pre post,
    web.downloadLogs h p r = pre ++ WriteHeader code :: post /\
    forallb (fun e => negb (is_output e)) pre = true.
Proof.
  intros [(err & Hfind & ->) | (container & err & Hfind & Hopen & ->)];
    unfold web.downloadLogs; rewrite Hfind; [|rewrite Hopen].
  - split.
    + apply (serve_status [_; _; _]). reflexivity.
    + exists [call_FindContainer (http.URLParam r "id");
              Header_Set "Content-Type" "text/plain; charset=utf-8";
              Header_Set "X-Content-Type-Options" "nosniff"].
      eexists. split; reflexivity.
  - split.
    + apply (serve_status [_; _; _; _; _; _]). reflexivity.
    + eexists [_; _; _; _; _; _]. eexists. split; reflexivity.
Qed.

Lemma download_error_status_witness :
  http.Status (http.serve
    (web.downloadLogs (I := sample.imports) sample.h_running sample.proc
       sample.unknown)) = 400 /\
  http.Status (http.serve
    (web.downloadLogs (I := sample.imports) sample.h_stopped sample.proc
       sample.unknown)) = 500.
Proof.
  split.
  - apply (download_error_status (I := sample.imports) sample.h_running
             sample.proc sample.unknown 400).
    left. exists (errorString "Unable to find container"). split; reflexivity.
  - apply (download_error_status (I := sample.imports) sample.h_stopped
             sample.proc sample.unknown 500).
    right. exists sample.web1, (errorString "connection refused").
    repeat split; reflexivity.
Defined.

(** ** Frames of the live stream *)

(** Against C3 as worded: on the sample event with position 5 the handler sends the data line
    first and the id line after it, the reverse of the frame worded in
    the specification. *)
Lemma event_frame_id_follows_data :
  json_Marshal (Imports := sample.imports) sample.hello = Ok "{}" /\
  Timestamp (Imports := sample.imports) sample.hello = 5 /\
  String.concat ""
    (writes (web.stream_select (I := sample.imports) (web.recv_event sample.hello)))
  = "data: {}" +:+ LF +:+ "id: 5" +:+ LF +:+ LF /\
  String.concat ""
    (writes (web.stream_select (I := sample.imports) (web.recv_event sample.hello)))
  <> web.spec_event_frame "{}" 5.
Proof.
  repeat split. vm_compute. discriminate.
Qed.

(** C3 (amended): for an event that [json.Marshal] encodes as [buf], the
    loop of [streamLogs] writes the line [data: buf], then the line
    [id: <Timestamp>] exactly when the timestamp is greater than zero, then
    an empty line, and flushes. *)
Theorem stream_event_frame {I : Imports} (event : LogEvent) (buf : string) :
  json_Marshal event = Ok buf ->
  web.stream_select (web.recv_event event) =
    Write ("data: " +:+ buf +:+ LF) ::
    (if 0 <? Timestamp event
     then [Write ("id: " +:+ fmt_d (Timestamp event) +:+ LF)]
     else []) ++
    [Write LF; Flush] /\
  (In (Write ("id: " +:+ fmt_d (Timestamp event) +:+ LF))
      (web.stream_select (web.recv_event event))
   <-> 0 < Timestamp event).
Proof.
  intros Hbuf. simpl. unfold web.stream_event. rewrite Hbuf.
  split; [reflexivity|].
  destruct (Z.ltb_spec 0 (Timestamp event)) as [Hpos|Hnonpos]; simpl.
  - split; [intros _; exact Hpos | intros _; right; left; reflexivity].
  - split; [|lia].
    intros [Hin|[Hin|[Hin|[]]]]; discriminate Hin.
Qed.

Lemma stream_event_frame_witness :
  web.stream_select (I := sample.imports) (web.recv_event sample.hello) =
    [ Write ("data: {}" +:+ LF); Write ("id: 5" +:+ LF); Write LF; Flush ] /\
  web.stream_select (I := sample.imports) (web.recv_event sample.plain) =
    [ Write ("data: {}" +:+ LF); Write LF; Flush ].
Proof.
  split.
  - apply (stream_event_frame (I := sample.imports) sample.hello "{}"). reflexivity.
  - apply (stream_event_frame (I := sample.imports) sample.plain "{}"). reflexivity.
Defined.

(** Against C4 as worded: the ping frame of the handler has no space
    after the colon. *)
Lemma ping_frame_differs :
  writes (web.stream_select (I := sample.imports) web.recv_tick)
  = [":ping " +:+ LF +:+ LF] /\
  writes (web.stream_select (I := sample.imports) web.recv_tick)
  <> [web.spec_ping_frame].
Proof.
  split; [reflexivity|]. vm_compute. discriminate.
Qed.

Lemma ticks_after_one (elapsed : Z) :
  5 * time.Second <= elapsed < 10 * time.Second ->
  web.ticks_after web.ping_period elapsed = 1%nat.
Proof.
  unfold web.ticks_after, web.ping_period, time.Second. intros Hel.
  replace (elapsed / (5 * 1000000000)) with 1; [reflexivity|].
  apply (Z.div_unique_pos elapsed (5 * 1000000000) 1 (elapsed - 5000000000)); lia.
Qed.

(** C4 (amended): [streamLogs] creates a ticker of period 5 seconds; each
    tick taken by the loop writes the bytes [:ping \n\n] (no space after the
    colon) and flushes; a stream that receives no event for 6 seconds (or
    any time from 5 up to 10 seconds) after that and is then closed has
    written exactly one such frame before what the closing writes. *)
Theorem stream_idle_ping {I : Imports}
    (h : web.handler) (p : web.process) (w : http.ResponseWriter)
    (r : http.Request) (container : docker.Container) (reader : docker.Reader)
    (elapsed : Z) :
  web.stdTypes_of r <> 0 ->
  http.is_Flusher w = true ->
  docker.FindContainer (web.clientFromRequest h r) (http.URLParam r "id")
    = Ok container ->
  docker.ContainerLogs (web.clientFromRequest h r) (docker.ID container)
    (web.lastEventId_of r) (web.stdTypes_of r) = Ok reader ->
  Events (NewEventGenerator reader (docker.Tty container)) = [] ->
  5 * time.Second <= elapsed < 10 * time.Second ->
  let g := NewEventGenerator reader (docker.Tty container) in
  let t := web.streamLogs h p w [web.ticks_after web.ping_period elapsed] r in
  In (NewTicker (5 * 1000000000)) t /\
  web.stream_select web.recv_tick = [Write (":ping " +:+ LF +:+ LF); Flush] /\
  writes t =
    (":ping " +:+ LF +:+ LF) :: writes (web.stream_closing container (Errors g)).
Proof.
  intros Hmask Hflush Hfound Hopen Hidle Hel g t. subst g t.
  rewrite (streamLogs_streaming h p w _ r container Hmask Hflush Hfound reader Hopen).
  rewrite Hidle, (ticks_after_one elapsed Hel).
  split; [|split].
  - apply in_or_app. right. left. reflexivity.
  - reflexivity.
  - rewrite writes_app.
    change (writes (web.stream_prelude r container)) with (@nil string).
    simpl. rewrite !writes_app, writes_mem_stats, app_nil_r. reflexivity.
Qed.

Lemma stream_idle_ping_witness :
  writes (web.streamLogs (I := sample.imports) sample.h_running sample.proc
            sample.flusher [web.ticks_after web.ping_period (6 * time.Second)]
            sample.both)
  = [":ping " +:+ LF +:+ LF].
Proof.
  apply (stream_idle_ping (I := sample.imports) sample.h_running sample.proc
           sample.flusher sample.both sample.web1 "" (6 * time.Second)).
  - vm_compute. discriminate.
  - reflexivity.
  - reflexivity.
  - reflexivity.
  - reflexivity.
  - unfold time.Second. lia.
Defined.

(** ** Events that cannot be encoded *)

(** Against C6 as worded: on the live stream the sample event that fails
    to encode still has
    its id line and the empty line written to the client. *)
Lemma bad_event_partly_written :
  json_Marshal (Imports := sample.imports) sample.bad
  = Err (errorString "unsupported value") /\
  writes (web.stream_select (I := sample.imports) (web.recv_event sample.bad))
  = ["id: 7" +:+ LF; LF] /\
  writes (web.stream_select (I := sample.imports) (web.recv_event sample.bad))
  <> [].
Proof.
  repeat split. vm_compute. discriminate.
Qed.

(** C6 (amended): when [json.Marshal] fails on an event, both loops log
    the failure as an error, write no JSON of that event, and go on with
    the events that follow.  The range endpoint writes nothing at all for
    the event; the live stream omits the data line only: it still writes
    the id line (when the timestamp is greater than zero) and the empty
    line, and flushes. *)
Theorem encoding_error_skipped {I : Imports} (event : LogEvent) (err : error) :
  json_Marshal event = Err err ->
  let failure := Log ErrorLevel ("json encoding error while streaming " +:+ Error err) in
  (forall pre post : list LogEvent,
     web.range_loop (pre ++ event :: post) =
       web.range_loop pre ++ failure :: web.range_loop post) /\
  (forall pre post : list (web.selected LogEvent),
     web.stream_loop (pre ++ web.recv_event event :: post) =
       concat (map web.stream_select pre) ++
       failure ::
       (if 0 <? Timestamp event
        then [Write ("id: " +:+ fmt_d (Timestamp event) +:+ LF)]
        else []) ++
       Write LF :: Flush :: web.stream_loop post).
Proof.
  intros Herr failure. split; intros pre post.
  - rewrite range_loop_app. simpl. unfold web.range_event. rewrite Herr.
    reflexivity.
  - rewrite stream_loop_app. simpl. unfold web.stream_event. rewrite Herr.
    simpl. rewrite <- app_assoc. reflexivity.
Qed.

Lemma encoding_error_skipped_witness :
  web.range_loop (I := sample.imports) ([sample.hello] ++ sample.bad :: [sample.plain]) =
    [ Write ("{}" +:+ LF);
      Log ErrorLevel "json encoding error while streaming unsupported value";
      Write ("{}" +:+ LF) ] /\
  web.stream_loop (I := sample.imports)
    ([web.recv_tick] ++ web.recv_event sample.bad :: [web.recv_event sample.plain]) =
    [ Write (":ping " +:+ LF +:+ LF); Flush;
      Log ErrorLevel "json encoding error while streaming unsupported value";
      Write ("id: 7" +:+ LF); Write LF; Flush;
      Write ("data: {}" +:+ LF); Write LF; Flush;
      Log DebugLevel "stream closed" ].
Proof.
  pose proof (encoding_error_skipped (I := sample.imports) sample.bad
                (errorString "unsupported value") eq_refl) as [Hrange Hstream].
  split.
  - exact (Hrange [sample.hello] [sample.plain]).
  - exact (Hstream [web.recv_tick] [web.recv_event sample.plain]).
Defined.

(** ** The resume position *)

(** Against C7 as worded: with the header [Last-Event-ID: 10] and the
    query parameter
    [lastEventId=20] the feed is opened at 20: the query parameter wins,
    where the specification words the header as the preferred one. *)
Lemma resume_prefers_query :
  web.feed_position
    (web.streamLogs (I := sample.imports) sample.h_running sample.proc
       sample.flusher [] sample.resume) = Some "20" /\
  web.spec_resume_position sample.resume = Some "10" /\
  web.feed_position
    (web.streamLogs (I := sample.imports) sample.h_running sample.proc
       sample.flusher [] sample.resume)
  <> web.spec_resume_position sample.resume.
Proof.
  repeat split. vm_compute. discriminate.
Qed.

Lemma Values_Get_absent (v : gmap string (list string)) (key : string) :
  v !! key = None -> http.Values_Get v key = "".
Proof. intros Hnone. unfold http.Values_Get. rewrite Hnone. reflexivity. Qed.

(** C7 (amended): [streamLogs] opens the feed at the value of the query
    parameter [lastEventId] when that value is not empty, whatever the
    header says; otherwise at the value of the header [Last-Event-ID];
    and at the empty position (which the client reads as now) when both
    are absent. *)
Theorem resume_position {I : Imports}
    (h : web.handler) (p : web.process) (w : http.ResponseWriter)
    (ticks : list nat) (r : http.Request) (container : docker.Container) :
  web.stdTypes_of r <> 0 ->
  http.is_Flusher w = true ->
  docker.FindContainer (web.clientFromRequest h r) (http.URLParam r "id")
    = Ok container ->
  let query := http.Values_Get (http.Query r) "lastEventId" in
  let header := http.Values_Get (http.Header r) "Last-Event-Id" in
  web.feed_position (web.streamLogs h p w ticks r) =
    Some (if decide (query = "") then header else query) /\
  (http.Query r !! "lastEventId" = None ->
   http.Header r !! "Last-Event-Id" = None ->
   web.feed_position (web.streamLogs h p w ticks r) = Some "").
Proof.
  intros Hmask Hflush Hfound query header.
  rewrite (streamLogs_opening h p w ticks r container Hmask Hflush Hfound).
  assert (Hpos : web.lastEventId_of r = if decide (query = "") then header else query).
  { unfold web.lastEventId_of. fold query.
    change (http.Header_Get (http.Header r) "Last-Event-ID") with header.
    destruct query; reflexivity. }
  simpl. rewrite Hpos. split; [reflexivity|].
  intros Hq Hh. subst query header.
  rewrite (Values_Get_absent _ _ Hq), (Values_Get_absent _ _ Hh). reflexivity.
Qed.

Lemma resume_position_witness :
  web.feed_position
    (web.streamLogs (I := sample.imports) sample.h_running sample.proc
       sample.flusher [] sample.resume) = Some "20" /\
  web.feed_position
    (web.streamLogs (I := sample.imports) sample.h_running sample.proc
       sample.flusher [] sample.both) = Some "".
Proof.
  split.
  - apply (resume_position (I := sample.imports) sample.h_running sample.proc
             sample.flusher [] sample.resume sample.web1);
      [vm_compute; discriminate | reflexivity | reflexivity].
  - apply (resume_position (I := sample.imports) sample.h_running sample.proc
             sample.flusher [] sample.both sample.web1);
      [vm_compute; discriminate | reflexivity | reflexivity
       | reflexivity | reflexivity].
Defined.

(** ** The name of the download *)

Lemma append_assoc (s1 s2 s3 : string) : (s1 +:+ s2) +:+ s3 = s1 +:+ (s2 +:+ s3).
Proof.
  induction s1 as [|c s1 IH]; [reflexivity|].
  change (String c ((s1 +:+ s2) +:+ s3) = String c (s1 +:+ (s2 +:+ s3))).
  rewrite IH. reflexivity.
Qed.

(** Against C9 as worded: for the sample container the attachment is named
    [web-2023-04-09T07-05-03.log.gz] and the gzip member
    [web-2023-04-09T07-05-03.log]: the two names are not equal. *)
Lemma gzip_name_differs :
  let response :=
    http.serve (web.downloadLogs (I := sample.imports) sample.h_running
                  sample.proc sample.resume) in
  http.ResponseHeader response !! "Content-Disposition"
  = Some ["attachment; filename=web-2023-04-09T07-05-03.log.gz"] /\
  web.gzip_names (http.Body response) = ["web-2023-04-09T07-05-03.log"] /\
  web.gzip_names (http.Body response) <> ["web-2023-04-09T07-05-03.log.gz"].
Proof.
  repeat split. vm_compute. discriminate.
Qed.

(** C9 (amended): a download that finds the container and opens the feed
    is answered 200 with the header [Content-Disposition: attachment;
    filename=<name>-<timestamp>.log.gz], where the name is the container's
    and the timestamp is the current time in the layout
    [2006-01-02T15-04-05]; the body is one gzip member whose header name is
    [<name>-<timestamp>.log], the file name without its [.gz] suffix. *)
Theorem download_names {I : Imports}
    (h : web.handler) (p : web.process) (r : http.Request)
    (container : docker.Container) (reader : docker.Reader) :
  docker.FindContainer (web.clientFromRequest h r) (http.URLParam r "id")
    = Ok container ->
  docker.ContainerLogsBetweenDates (web.clientFromRequest h r)
    (http.URLParam r "id") time.zero (web.time_Now p) STDALL = Ok reader ->
  let response := http.serve (web.downloadLogs h p r) in
  let name :=
    docker.Name container +:+ "-" +:+
    time.Format_2006_01_02T15_04_05 (web.time_Now p) +:+ ".log" in
  http.Status response = http.StatusOK /\
  http.ResponseHeader response !! "Content-Disposition"
  = Some ["attachment; filename=" +:+ name +:+ ".gz"] /\
  http.ResponseHeader response !! "Content-Type" = Some ["application/gzip"] /\
  web.gzip_names (http.Body response) = [name].
Proof.
  intros Hfound Hopen response name.
  assert (Hname :
    "attachment; filename=" +:+ name +:+ ".gz" =
    "attachment; filename=" +:+ docker.Name container +:+ "-" +:+
    time.Format_2006_01_02T15_04_05 (web.time_Now p) +:+ ".log.gz").
  { subst name. f_equal. rewrite !append_assoc. reflexivity. }
  rewrite Hname. subst response name.
  unfold web.downloadLogs. rewrite Hfound, Hopen.
  generalize (time.Format_2006_01_02T15_04_05 (web.time_Now p)) as stamp.
  intros stamp.
  destruct (docker.Tty container); vm_compute; repeat split.
Qed.

Lemma download_names_witness :
  let response :=
    http.serve (web.downloadLogs (I := sample.imports) sample.h_running
                  sample.proc sample.resume) in
  http.Status response = 200 /\
  http.ResponseHeader response !! "Content-Disposition"
  = Some ["attachment; filename=" +:+ "web-2023-04-09T07-05-03.log" +:+ ".gz"] /\
  http.ResponseHeader response !! "Content-Type" = Some ["application/gzip"] /\
  web.gzip_names (http.Body response) = ["web-2023-04-09T07-05-03.log"].
Proof.
  apply (download_names (I := sample.imports) sample.h_running sample.proc
           sample.resume sample.web1 "raw feed"); reflexivity.
Defined.

(** ** The bounds of a range query *)

(** A handler that never calls [WriteHeader] answers 200. *)
Lemma step_status_ok (c : http.conn) (e : effect) :
  (forall code, e <> WriteHeader code) ->
  (forall x, http.wroteHeader c = Some x -> x.1 = http.StatusOK) ->
  forall x, http.wroteHeader (http.step c e) = Some x -> x.1 = http.StatusOK.
Proof.
  intros He Hc x Hx.
  destruct (http.wroteHeader c) as [y|] eqn:Hy.
  - rewrite (step_wroteHeader c e y Hy) in Hx. apply Hc. exact Hx.
  - destruct e; simpl in Hx;
      try (rewrite Hy in Hx; discriminate Hx);
      try (exfalso; apply (He code); reflexivity);
      unfold http.add_chunk, http.commit in Hx; rewrite Hy in Hx; simpl in Hx;
      inversion Hx; reflexivity.
Qed.

Lemma fold_status_ok (t : trace) (c : http.conn) :
  (forall code, ~ In (WriteHeader code) t) ->
  (forall x, http.wroteHeader c = Some x -> x.1 = http.StatusOK) ->
  forall x, http.wroteHeader (fold_left http.step t c) = Some x ->
            x.1 = http.StatusOK.
Proof.
  revert c. induction t as [|e t IH]; intros c Hno Hc; [exact Hc|].
  simpl. apply IH.
  - intros code Hin. apply (Hno code). right. exact Hin.
  - apply step_status_ok; [|exact Hc].
    intros code ->. apply (Hno code). left. reflexivity.
Qed.

Lemma serve_status_ok (t : trace) :
  (forall code, ~ In (WriteHeader code) t) ->
  http.Status (http.serve t) = http.StatusOK.
Proof.
  intros Hno. unfold http.serve.
  pose proof (fold_status_ok t http.conn0 Hno) as Hfold.
  set (c := fold_left http.step t http.conn0) in *.
  unfold http.commit.
  destruct (http.wroteHeader c) as [[code hdr]|] eqn:Hc; simpl.
  - rewrite Hc. apply (Hfold ltac:(discriminate) (code, hdr) eq_refl).
  - reflexivity.
Qed.

Lemma range_loop_effects {I : Imports} (events : list LogEvent) :
  Forall (fun e => (exists p, e = Write p) \/ (exists msg, e = Log ErrorLevel msg))
         (web.range_loop events).
Proof.
  induction events as [|event events IH]; [constructor|].
  simpl. apply Forall_app. split; [|exact IH].
  unfold web.range_event.
  destruct (json_Marshal event) as [buf|err]; (constructor; [|constructor]).
  - left. eexists. reflexivity.
  - right. eexists. reflexivity.
Qed.

Lemma range_loop_no_feed_open {I : Imports} (events : list LogEvent) :
  filter is_feed_open (web.range_loop events) = [].
Proof.
  pose proof (range_loop_effects events) as Hall.
  induction Hall as [|e t [[p ->]|[msg ->]] _ IH]; [reflexivity| |]; exact IH.
Qed.

Lemma range_loop_no_WriteHeader {I : Imports} (events : list LogEvent) (code : Z) :
  ~ In (WriteHeader code) (web.range_loop events).
Proof.
  pose proof (range_loop_effects events) as Hall.
  intros Hin. rewrite Forall_forall in Hall.
  apply list_elem_of_In, Hall in Hin. destruct Hin as [[q Hq]|[msg Hq]]; discriminate Hq.
Qed.

(** C10: [fetchLogsBetweenDates] does not validate [from] and [to].  For
    every request with a non-empty mask the handler goes on to look up the
    container and is never answered 400; when the container is found it
    opens exactly one feed, bounded by the parsed values, where a bound
    whose value is not accepted by the RFC 3339 parser is the zero time, and
    so is the bound of an absent parameter (read as the empty string, which
    the parser rejects). *)
Theorem range_bounds_not_validated {I : Imports}
    (h : web.handler) (r : http.Request) :
  web.stdTypes_of r <> 0 ->
  let t := web.fetchLogsBetweenDates h r in
  let bound key :=
    match parse_RFC3339 (http.Values_Get (http.Query r) key) with
    | Some time => time
    | None => time.zero
    end in
  http.Status (http.serve t) <> http.StatusBadRequest /\
  In (call_FindContainer (http.URLParam r "id")) t /\
  (forall container,
     docker.FindContainer (web.clientFromRequest h r) (http.URLParam r "id")
       = Ok container ->
     filter is_feed_open t =
       [call_ContainerLogsBetweenDates (docker.ID container)
          (bound "from") (bound "to") (web.stdTypes_of r)]) /\
  (forall key,
     parse_RFC3339 (http.Values_Get (http.Query r) key) = None ->
     bound key = time.zero) /\
  (forall key,
     http.Query r !! key = None -> parse_RFC3339 "" = None ->
     bound key = time.zero).
Proof.
  intros Hmask t bound.
  assert (Hbound : forall key,
            fst (time.Parse parse_RFC3339 (http.Values_Get (http.Query r) key))
            = bound key).
  { intros key. unfold time.Parse, bound.
    destruct (parse_RFC3339 (http.Values_Get (http.Query r) key)); reflexivity. }
  subst t. unfold web.fetchLogsBetweenDates.
  apply Z.eqb_neq in Hmask. rewrite Hmask, !Hbound.
  repeat split.
  - destruct (docker.FindContainer _ _) as [container|err].
    + destruct (docker.ContainerLogsBetweenDates _ _ _ _ _) as [reader|err].
      * rewrite serve_status_ok; [discriminate|].
        intros code [Hin|[Hin|[Hin|[Hin|Hin]]]]; try discriminate Hin.
        exact (range_loop_no_WriteHeader _ code Hin).
      * match goal with |- http.Status (http.serve ?t) <> _ =>
          assert (Hs : http.Status (http.serve t) = http.StatusInternalServerError)
            by (apply (serve_status [_; _; _; _; _]); reflexivity)
        end.
        rewrite Hs. discriminate.
    + match goal with |- http.Status (http.serve ?t) <> _ =>
        assert (Hs : http.Status (http.serve t) = http.StatusNotFound)
          by (apply (serve_status [_; _; _; _]); reflexivity)
      end.
      rewrite Hs. discriminate.
  - right. left. reflexivity.
  - intros container Hfound. rewrite Hfound.
    destruct (docker.ContainerLogsBetweenDates _ _ _ _ _) as [reader|err].
    + change (filter is_feed_open (?a :: ?b :: ?c :: ?d :: ?l))
        with (c :: filter is_feed_open l).
      rewrite range_loop_no_feed_open. reflexivity.
    + reflexivity.
  - intros key Hinvalid. unfold bound. rewrite Hinvalid. reflexivity.
  - intros key Habsent Hempty. unfold bound.
    rewrite (Values_Get_absent _ _ Habsent), Hempty. reflexivity.
Qed.

Lemma range_bounds_not_validated_witness :
  filter is_feed_open
    (web.fetchLogsBetweenDates (I := sample.imports) sample.h_running sample.both)
  = [call_ContainerLogsBetweenDates "abc" time.zero time.zero 3].
Proof.
  assert (Hmask : web.stdTypes_of (I := sample.imports) sample.both <> 0)
    by (vm_compute; discriminate).
  destruct (range_bounds_not_validated (I := sample.imports) sample.h_running
              sample.both Hmask) as (_ & _ & Hopen & _).
  exact (Hopen sample.web1 eq_refl).
Defined.

(** ** The effects of the loops *)

Lemma stream_select_io {I : Imports} (s : web.selected LogEvent) :
  Forall (fun e => is_io e = true) (web.stream_select s).
Proof.
  destruct s as [event|]; simpl; [|repeat constructor].
  unfold web.stream_event.
  destruct (json_Marshal event), (0 <? Timestamp event); repeat constructor.
Qed.

Lemma stream_loop_io {I : Imports} (order : list (web.selected LogEvent)) :
  Forall (fun e => is_io e = true) (web.stream_loop order).
Proof.
  induction order as [|s order IH]; simpl; [repeat constructor|].
  apply Forall_app. split; [apply stream_select_io | exact IH].
Qed.

Lemma stream_closing_io {I : Imports} (container : docker.Container)
    (pending : option (option error)) :
  Forall (fun e => is_io e = true) (web.stream_closing container pending).
Proof.
  destruct pending as [[[| |msg]|]|]; simpl; repeat constructor.
Qed.

Lemma mem_stats_io (p : web.process) :
  Forall (fun e => is_io e = true) (web.mem_stats p).
Proof.
  unfold web.mem_stats. destruct (web.debug_enabled p); repeat constructor.
Qed.

Lemma range_loop_io {I : Imports} (events : list LogEvent) :
  Forall (fun e => is_io e = true) (web.range_loop events).
Proof.
  induction events as [|event events IH]; simpl; [constructor|].
  apply Forall_app. split; [|exact IH].
  unfold web.range_event. destruct (json_Marshal event); repeat constructor.
Qed.

(** A filter that rejects writes, flushes and logger calls finds nothing
    in the effects of a loop. *)
Lemma filter_io (f : effect -> bool) (t : trace) :
  (forall e, is_io e = true -> f e = false) ->
  Forall (fun e => is_io e = true) t ->
  filter f t = [].
Proof.
  intros Hf Hall. unfold trace in *.
  induction Hall as [|e t He _ IH]; [reflexivity|].
  rewrite filter_cons. destruct (decide (f e)) as [Hfe|_]; [|exact IH].
  rewrite (Hf e He) in Hfe. destruct Hfe.
Qed.

(** ** Headers are frozen by the first output *)

Lemma step_keeps_header (c : http.conn) (e : effect) (hdr : gmap string (list string)) :
  keeps_header e = true ->
  http.handlerHeader c = hdr ->
  http.wroteHeader c = None \/ http.wroteHeader c = Some (http.StatusOK, hdr) ->
  http.handlerHeader (http.step c e) = hdr /\
  (http.wroteHeader (http.step c e) = None \/
   http.wroteHeader (http.step c e) = Some (http.StatusOK, hdr)).
Proof.
  intros He Hh Hw.
  destruct e; try discriminate He; simpl;
    try (split; [exact Hh | exact Hw]);
    unfold http.add_chunk, http.commit;
    destruct Hw as [Hw|Hw]; rewrite Hw; simpl;
    (split; [exact Hh | right; rewrite ?Hh; reflexivity || exact Hw]).
Qed.

Lemma fold_keeps_header (t : trace) (c : http.conn) (hdr : gmap string (list string)) :
  Forall (fun e => keeps_header e = true) t ->
  http.handlerHeader c = hdr ->
  http.wroteHeader c = None \/ http.wroteHeader c = Some (http.StatusOK, hdr) ->
  http.handlerHeader (fold_left http.step t c) = hdr /\
  (http.wroteHeader (fold_left http.step t c) = None \/
   http.wroteHeader (fold_left http.step t c) = Some (http.StatusOK, hdr)).
Proof.
  intros Hall. revert c.
  induction Hall as [|e t He _ IH]; intros c Hh Hw; [split; assumption|].
  simpl. destruct (step_keeps_header c e hdr He Hh Hw) as [Hh' Hw'].
  apply IH; assumption.
Qed.

(** When a handler has only edited the header map in [pre] and touches
    neither the map nor the status line afterwards, the response is 200
    with that map. *)
Lemma serve_header_frozen (pre rest : trace) :
  forallb (fun e => negb (is_output e)) pre = true ->
  Forall (fun e => keeps_header e = true) rest ->
  http.Status (http.serve (pre ++ rest)) = http.StatusOK /\
  http.ResponseHeader (http.serve (pre ++ rest))
  = http.handlerHeader (fold_left http.step pre http.conn0).
Proof.
  intros Hpre Hrest. unfold http.serve. rewrite fold_left_app.
  pose proof (fold_silent pre http.conn0 Hpre eq_refl) as Hnone.
  set (c0 := fold_left http.step pre http.conn0) in *.
  destruct (fold_keeps_header rest c0 (http.handlerHeader c0) Hrest eq_refl
              (or_introl Hnone)) as [Hh Hw].
  set (c := fold_left http.step rest c0) in *.
  unfold http.commit. destruct Hw as [Hw|Hw]; rewrite Hw; simpl.
  - rewrite Hh. split; reflexivity.
  - rewrite Hw. split; reflexivity.
Qed.

Lemma io_keeps_header (t : trace) :
  Forall (fun e => is_io e = true) t -> Forall (fun e => keeps_header e = true) t.
Proof.
  intros Hall. eapply Forall_impl; [exact Hall|].
  intros e He. destruct e; try discriminate He; reflexivity.
Qed.

(** ** The range endpoint *)

Lemma writes_range_loop {I : Imports} (events : list LogEvent) :
  writes (web.range_loop events) = encoded_lines events.
Proof.
  induction events as [|event events IH]; [reflexivity|].
  simpl. rewrite writes_app, IH. unfold web.range_event.
  destruct (json_Marshal event); reflexivity.
Qed.

Lemma logged_range_loop {I : Imports} (events : list LogEvent) :
  logged ErrorLevel (web.range_loop events) = encoding_failures events.
Proof.
  induction events as [|event events IH]; [reflexivity|].
  simpl. rewrite logged_app, IH. unfold web.range_event.
  destruct (json_Marshal event); reflexivity.
Qed.

Lemma range_loop_no_flush {I : Imports} (events : list LogEvent) :
  filter is_Flush (web.range_loop events) = [].
Proof.
  pose proof (range_loop_effects events) as Hall.
  induction Hall as [|e t [[p ->]|[msg ->]] _ IH]; [reflexivity| |]; exact IH.
Qed.

(** X1: a range request with a non-empty mask, on a container that is
    found and whose feed opens, is answered 200 with the content type
    [application/ld+json; charset=UTF-8]; the handler writes one line per
    event that encodes, in the order of the generator, logs one error per
    event that does not, and never flushes. *)
Theorem range_success {I : Imports}
    (h : web.handler) (r : http.Request)
    (container : docker.Container) (reader : docker.Reader) :
  web.stdTypes_of r <> 0 ->
  docker.FindContainer (web.clientFromRequest h r) (http.URLParam r "id")
    = Ok container ->
  docker.ContainerLogsBetweenDates (web.clientFromRequest h r) (docker.ID container)
    (fst (time.Parse parse_RFC3339 (http.Values_Get (http.Query r) "from")))
    (fst (time.Parse parse_RFC3339 (http.Values_Get (http.Query r) "to")))
    (web.stdTypes_of r) = Ok reader ->
  let events := Events (NewEventGenerator reader (docker.Tty container)) in
  let t := web.fetchLogsBetweenDates h r in
  http.Status (http.serve t) = http.StatusOK /\
  http.ResponseHeader (http.serve t) !! "Content-Type"
  = Some ["application/ld+json; charset=UTF-8"] /\
  writes t = encoded_lines events /\
  logged ErrorLevel t = encoding_failures events /\
  filter is_Flush t = [].
Proof.
  intros Hmask Hfound Hopen events t. subst t.
  unfold web.fetchLogsBetweenDates.
  apply Z.eqb_neq in Hmask. rewrite Hmask, Hfound, Hopen. fold events.
  pose proof (range_loop_io events) as Hio.
  destruct (serve_header_frozen
              [ Header_Set "Content-Type" "application/ld+json; charset=UTF-8";
                call_FindContainer (http.URLParam r "id");
                call_ContainerLogsBetweenDates (docker.ID container)
                  (fst (time.Parse parse_RFC3339 (http.Values_Get (http.Query r) "from")))
                  (fst (time.Parse parse_RFC3339 (http.Values_Get (http.Query r) "to")))
                  (web.stdTypes_of r);
                call_NewEventGenerator (docker.Tty container) ]
              (web.range_loop events) eq_refl (io_keeps_header _ Hio))
    as [Hstatus Hheader].
  cbn [app] in Hstatus, Hheader.
  split; [exact Hstatus|]. split; [rewrite Hheader; reflexivity|].
  split; [exact (writes_range_loop events)|].
  split; [exact (logged_range_loop events)|].
  change (filter is_Flush (?a :: ?b :: ?c :: ?d :: ?l)) with (filter is_Flush l).
  exact (range_loop_no_flush events).
Qed.

Lemma range_success_witness :
  let t := web.fetchLogsBetweenDates (I := sample.imports) sample.h_running
             sample.both in
  http.Status (http.serve t) = 200 /\
  http.ResponseHeader (http.serve t) !! "Content-Type"
  = Some ["application/ld+json; charset=UTF-8"] /\
  writes t = ["{}" +:+ LF; "{}" +:+ LF] /\
  logged ErrorLevel t = ["json encoding error while streaming unsupported value"] /\
  filter is_Flush t = [].
Proof.
  apply (range_success (I := sample.imports) sample.h_running sample.both
           sample.web1 "raw feed").
  - vm_compute. discriminate.
  - reflexivity.
  - reflexivity.
Defined.

(** ** Error responses of the stream and range endpoints *)

(** X2: on the stream and range endpoints, a request with a non-empty
    mask whose container lookup fails is answered 404 with the error
    message and a newline as a plain-text body; the lookup is the only call
    the handler makes, so no feed is opened. *)
Theorem unknown_container_not_found {I : Imports}
    (h : web.handler) (p : web.process) (w : http.ResponseWriter)
    (ticks : list nat) (r : http.Request) (err : error) :
  web.stdTypes_of r <> 0 ->
  http.is_Flusher w = true ->
  docker.FindContainer (web.clientFromRequest h r) (http.URLParam r "id")
    = Err err ->
  let response :=
    http.mkResponse http.StatusNotFound error_header [http.Bytes (Error err +:+ LF)] in
  let lookup := [call_FindContainer (http.URLParam r "id")] in
  (http.serve (web.streamLogs h p w ticks r) = response /\
   filter is_call (web.streamLogs h p w ticks r) = lookup) /\
  (http.serve (web.fetchLogsBetweenDates h r) = response /\
   filter is_call (web.fetchLogsBetweenDates h r) = lookup).
Proof.
  intros Hmask Hflush Hfound response lookup.
  unfold web.streamLogs, web.fetchLogsBetweenDates.
  apply Z.eqb_neq in Hmask. rewrite Hmask, Hflush, Hfound.
  subst response lookup.
  generalize (Error err) as body, (http.URLParam r "id") as id.
  intros body id. vm_compute. repeat split; reflexivity.
Qed.

Lemma unknown_container_not_found_witness :
  http.serve (web.fetchLogsBetweenDates (I := sample.imports) sample.h_running
                scenario.stderr_only)
  = http.mkResponse 404 error_header [http.Bytes ("Unable to find container" +:+ LF)].
Proof.
  apply (unknown_container_not_found (I := sample.imports) sample.h_running
           sample.proc sample.flusher [] scenario.stderr_only
           (errorString "Unable to find container")).
  - vm_compute. discriminate.
  - reflexivity.
  - reflexivity.
Defined.

(** X3: when the feed-open call fails (on the live stream with an error
    other than [io.EOF]), the handler answers 500 with the error message as
    a plain-text body and stops: no ticker is created and no event
    generator is started.  On the live stream the headers set for
    streaming stay in that response, except the content type. *)
Theorem feed_open_failure {I : Imports}
    (h : web.handler) (p : web.process) (w : http.ResponseWriter)
    (ticks : list nat) (r : http.Request)
    (container : docker.Container) (err : error) :
  web.stdTypes_of r <> 0 ->
  http.is_Flusher w = true ->
  docker.FindContainer (web.clientFromRequest h r) (http.URLParam r "id")
    = Ok container ->
  (docker.ContainerLogs (web.clientFromRequest h r) (docker.ID container)
     (web.lastEventId_of r) (web.stdTypes_of r) = Err err ->
   err <> io_EOF ->
   let t := web.streamLogs h p w ticks r in
   http.serve t =
     http.mkResponse http.StatusInternalServerError
       (error_header ∪ stream_header) [http.Bytes (Error err +:+ LF)] /\
   filter is_call t =
     [ call_FindContainer (http.URLParam r "id");
       call_ContainerLogs (docker.ID container) (web.lastEventId_of r)
         (web.stdTypes_of r) ] /\
   filter is_NewTicker t = []) /\
  (docker.ContainerLogsBetweenDates (web.clientFromRequest h r) (docker.ID container)
     (fst (time.Parse parse_RFC3339 (http.Values_Get (http.Query r) "from")))
     (fst (time.Parse parse_RFC3339 (http.Values_Get (http.Query r) "to")))
     (web.stdTypes_of r) = Err err ->
   let t := web.fetchLogsBetweenDates h r in
   http.serve t =
     http.mkResponse http.StatusInternalServerError error_header
       [http.Bytes (Error err +:+ LF)] /\
   filter is_call t =
     [ call_FindContainer (http.URLParam r "id");
       call_ContainerLogsBetweenDates (docker.ID container)
         (fst (time.Parse parse_RFC3339 (http.Values_Get (http.Query r) "from")))
         (fst (time.Parse parse_RFC3339 (http.Values_Get (http.Query r) "to")))
         (web.stdTypes_of r) ]).
Proof.
  intros Hmask Hflush Hfound. split.
  - intros Hopen Hne t. subst t.
    rewrite (streamLogs_opening h p w ticks r container Hmask Hflush Hfound), Hopen.
    destruct (decide (err = io_EOF)) as [Heq|_]; [contradiction|].
    unfold web.stream_prelude.
    generalize (Error err) as body, (http.URLParam r "id") as id,
      (docker.ID container) as cid, (web.lastEventId_of r) as pos,
      (web.stdTypes_of r) as std.
    intros body id cid pos std. vm_compute. repeat split; reflexivity.
  - intros Hopen t. subst t. unfold web.fetchLogsBetweenDates.
    apply Z.eqb_neq in Hmask. rewrite Hmask, Hfound, Hopen.
    generalize (Error err) as body, (http.URLParam r "id") as id,
      (docker.ID container) as cid, (web.stdTypes_of r) as std,
      (fst (time.Parse parse_RFC3339 (http.Values_Get (http.Query r) "from"))) as from,
      (fst (time.Parse parse_RFC3339 (http.Values_Get (http.Query r) "to"))) as to.
    intros body id cid std from to. vm_compute. repeat split; reflexivity.
Qed.

Lemma feed_open_failure_witness :
  http.serve (web.streamLogs (I := sample.imports) scenario.h_refused sample.proc
                sample.flusher [] sample.both)
  = http.mkResponse 500 (error_header ∪ stream_header)
      [http.Bytes ("connection refused" +:+ LF)] /\
  http.serve (web.fetchLogsBetweenDates (I := sample.imports) scenario.h_refused
                sample.both)
  = http.mkResponse 500 error_header [http.Bytes ("connection refused" +:+ LF)].
Proof.
  assert (Hmask : web.stdTypes_of (I := sample.imports) sample.both <> 0)
    by (vm_compute; discriminate).
  destruct (feed_open_failure (I := sample.imports) scenario.h_refused sample.proc
              sample.flusher [] sample.both scenario.web2
              (errorString "connection refused") Hmask eq_refl eq_refl)
    as [Hstream Hrange].
  split.
  - apply Hstream; [reflexivity | discriminate].
  - apply Hrange. reflexivity.
Defined.

(** X4: a stream request with a non-empty mask on a response writer that
    is not an [http.Flusher] is answered 500 with the body
    [Streaming unsupported!] before any call to the container client. *)
Theorem stream_not_flusher {I : Imports}
    (h : web.handler) (p : web.process) (w : http.ResponseWriter)
    (ticks : list nat) (r : http.Request) :
  web.stdTypes_of r <> 0 ->
  http.is_Flusher w = false ->
  http.serve (web.streamLogs h p w ticks r) =
    http.mkResponse http.StatusInternalServerError error_header
      [http.Bytes ("Streaming unsupported!" +:+ LF)] /\
  filter is_call (web.streamLogs h p w ticks r) = [].
Proof.
  intros Hmask Hflush. unfold web.streamLogs.
  apply Z.eqb_neq in Hmask. rewrite Hmask, Hflush.
  vm_compute. split; reflexivity.
Qed.

Lemma stream_not_flusher_witness :
  http.Status
    (http.serve (web.streamLogs (I := sample.imports) sample.h_running sample.proc
                   scenario.buffered [] sample.both)) = 500.
Proof.
  assert (Hmask : web.stdTypes_of (I := sample.imports) sample.both <> 0)
    by (vm_compute; discriminate).
  destruct (stream_not_flusher (I := sample.imports) sample.h_running sample.proc
              scenario.buffered [] sample.both Hmask eq_refl) as [Hserve _].
  rewrite Hserve. reflexivity.
Defined.

(** X5: when [docker.STDOUT] and [docker.STDERR] are not zero, the mask
    read from a request is empty exactly when neither flag is present; the
    values given to the flags are not read. *)
Theorem mask_empty_iff_no_flag {I : Imports} (r : http.Request) :
  STDOUT <> 0 -> STDERR <> 0 ->
  (web.stdTypes_of r = 0 <->
   http.Query r !! "stdout" = None /\ http.Query r !! "stderr" = None).
Proof.
  intros Hout Herr. unfold web.stdTypes_of, http.Values_Has.
  destruct (http.Query r !! "stdout") as [vout|] eqn:Eout;
    destruct (http.Query r !! "stderr") as [verr|] eqn:Eerr;
    simpl; rewrite ?Z.lor_0_l; split;
    try (intros [? ?]; discriminate);
    try (intros _; split; reflexivity);
    try reflexivity.
  - intros Hzero. apply Z.lor_eq_0_iff in Hzero as [Hzero _]. contradiction.
  - intros Hzero. contradiction.
  - intros Hzero. contradiction.
Qed.

Lemma mask_empty_iff_no_flag_witness :
  web.stdTypes_of (I := sample.imports) scenario.stderr_only <> 0.
Proof.
  intros Hzero.
  apply (mask_empty_iff_no_flag (I := sample.imports) scenario.stderr_only) in Hzero
    as [_ Hnone]; [discriminate Hnone | discriminate | discriminate].
Defined.

(** ** The response of the live stream *)

Lemma stream_body_io {I : Imports} (order : list (web.selected LogEvent))
    (container : docker.Container) (pending : option (option error))
    (p : web.process) (tty : bool) :
  Forall (fun e => keeps_header e = true)
    (NewTicker web.ping_period :: call_NewEventGenerator tty ::
     web.stream_loop order ++ web.stream_closing container pending ++
     web.mem_stats p ++ [ticker_Stop]).
Proof.
  constructor; [reflexivity|]. constructor; [reflexivity|].
  repeat (apply Forall_app; split).
  - apply io_keeps_header, stream_loop_io.
  - apply io_keeps_header, stream_closing_io.
  - apply io_keeps_header, mem_stats_io.
  - repeat constructor.
Qed.

(** X6: once the feed is open, whatever events and ticks follow, the
    response of [streamLogs] has status 200 and exactly the headers
    [Content-Type: text/event-stream], [Cache-Control: no-transform] and
    [no-cache], [Connection: keep-alive] and [X-Accel-Buffering: no]. *)
Theorem stream_response_header {I : Imports}
    (h : web.handler) (p : web.process) (w : http.ResponseWriter)
    (ticks : list nat) (r : http.Request)
    (container : docker.Container) (reader : docker.Reader) :
  web.stdTypes_of r <> 0 ->
  http.is_Flusher w = true ->
  docker.FindContainer (web.clientFromRequest h r) (http.URLParam r "id")
    = Ok container ->
  docker.ContainerLogs (web.clientFromRequest h r) (docker.ID container)
    (web.lastEventId_of r) (web.stdTypes_of r) = Ok reader ->
  http.Status (http.serve (web.streamLogs h p w ticks r)) = http.StatusOK /\
  http.ResponseHeader (http.serve (web.streamLogs h p w ticks r)) = stream_header.
Proof.
  intros Hmask Hflush Hfound Hopen.
  rewrite (streamLogs_streaming h p w ticks r container Hmask Hflush Hfound reader Hopen).
  destruct (serve_header_frozen (web.stream_prelude r container) _ eq_refl
              (stream_body_io
                 (web.select_order ticks
                    (Events (NewEventGenerator reader (docker.Tty container))))
                 container
                 (Errors (NewEventGenerator reader (docker.Tty container)))
                 p (docker.Tty container)))
    as [Hstatus Hheader].
  split; [exact Hstatus|]. rewrite Hheader.
  unfold web.stream_prelude.
  generalize (http.URLParam r "id") as id, (docker.ID container) as cid,
    (web.lastEventId_of r) as pos, (web.stdTypes_of r) as std.
  intros id cid pos std. vm_compute. reflexivity.
Qed.

Lemma stream_response_header_witness :
  http.ResponseHeader
    (http.serve (web.streamLogs (I := sample.imports) sample.h_running sample.proc
                   sample.flusher [1; 0; 0; 2]%nat sample.resume))
  = stream_header.
Proof.
  apply (stream_response_header (I := sample.imports) sample.h_running sample.proc
           sample.flusher [1; 0; 0; 2]%nat sample.resume sample.web1 "raw feed").
  - vm_compute. discriminate.
  - reflexivity.
  - reflexivity.
  - reflexivity.
Defined.

(** ** Flushing *)

Lemma unflushed_from_app (acc : list string) (t1 t2 : trace) :
  unflushed_from acc (t1 ++ t2) = unflushed_from (unflushed_from acc t1) t2.
Proof. unfold unflushed_from. apply fold_left_app. Qed.

Lemma unflushed_select {I : Imports} (acc : list string)
    (s : web.selected LogEvent) :
  unflushed_from acc (web.stream_select s) = [].
Proof.
  destruct s as [event|]; simpl; [|reflexivity].
  unfold web.stream_event.
  destruct (json_Marshal event), (0 <? Timestamp event); reflexivity.
Qed.

Lemma unflushed_steps {I : Imports} (order : list (web.selected LogEvent)) :
  unflushed_from [] (concat (map web.stream_select order)) = [].
Proof.
  induction order as [|s order IH]; [reflexivity|].
  simpl. rewrite unflushed_from_app, unflushed_select. exact IH.
Qed.

Lemma unflushed_closing {I : Imports} (container : docker.Container)
    (pending : option (option error)) :
  unflushed_from [] (web.stream_closing container pending) = [].
Proof. destruct pending as [[[| |msg]|]|]; reflexivity. Qed.

Lemma unflushed_mem_stats (acc : list string) (p : web.process) :
  unflushed_from acc (web.mem_stats p) = acc.
Proof. unfold web.mem_stats. destruct (web.debug_enabled p); reflexivity. Qed.

(** X7: on the live stream nothing written stays unflushed: every case of
    the loop ends with a flush, whatever was pending before it, and when a
    handler that opened the feed or found the container stopped returns,
    every write has been followed by a flush. *)
Theorem stream_flushed {I : Imports}
    (h : web.handler) (p : web.process) (w : http.ResponseWriter)
    (ticks : list nat) (r : http.Request) (container : docker.Container) :
  web.stdTypes_of r <> 0 ->
  http.is_Flusher w = true ->
  docker.FindContainer (web.clientFromRequest h r) (http.URLParam r "id")
    = Ok container ->
  (forall err,
     docker.ContainerLogs (web.clientFromRequest h r) (docker.ID container)
       (web.lastEventId_of r) (web.stdTypes_of r) = Err err -> err = io_EOF) ->
  (forall acc s, unflushed_from acc (web.stream_select s) = []) /\
  unflushed (web.streamLogs h p w ticks r) = [].
Proof.
  intros Hmask Hflush Hfound Hopen. split; [exact unflushed_select|].
  rewrite (streamLogs_opening h p w ticks r container Hmask Hflush Hfound).
  unfold unflushed. rewrite unflushed_from_app.
  change (unflushed_from [] (web.stream_prelude r container)) with (@nil string).
  destruct (docker.ContainerLogs _ _ _ _) as [reader|err].
  - change (unflushed_from [] (NewTicker ?d :: call_NewEventGenerator ?b :: ?t))
      with (unflushed_from [] t).
    rewrite stream_loop_steps, <- app_assoc, !unflushed_from_app.
    rewrite unflushed_steps.
    change (unflushed_from [] [Log DebugLevel "stream closed"]) with (@nil string).
    rewrite unflushed_closing, unflushed_mem_stats. reflexivity.
  - rewrite (Hopen err eq_refl). reflexivity.
Qed.

Lemma stream_flushed_witness :
  unflushed
    (web.streamLogs (I := sample.imports) sample.h_running sample.proc
       sample.flusher [1; 0; 0; 2]%nat sample.resume) = [].
Proof.
  apply (stream_flushed (I := sample.imports) sample.h_running sample.proc
           sample.flusher [1; 0; 0; 2]%nat sample.resume sample.web1).
  - vm_compute. discriminate.
  - reflexivity.
  - reflexivity.
  - intros err Herr. discriminate Herr.
Defined.

(** ** Ticks and events *)

Lemma not_ping_event {I : Imports} (event : LogEvent) :
  filter not_ping (writes (web.stream_event event)) = writes (web.stream_event event).
Proof.
  unfold web.stream_event.
  destruct (json_Marshal event), (0 <? Timestamp event); reflexivity.
Qed.

Lemma not_ping_ticks {I : Imports} (n : nat) :
  filter not_ping
    (writes (concat (map web.stream_select (replicate n web.recv_tick)))) = [].
Proof. induction n as [|n IH]; [reflexivity|]. exact IH. Qed.

Lemma concat_map_app {A B : Type} (f : A -> list B) (l1 l2 : list A) :
  concat (map f (l1 ++ l2)) = concat (map f l1) ++ concat (map f l2).
Proof. rewrite map_app, concat_app. reflexivity. Qed.

Lemma select_order_cons {A : Type} (ticks : list nat) (event : A) (events : list A) :
  web.select_order ticks (event :: events) =
  replicate (hd 0%nat ticks) web.recv_tick ++
  web.recv_event event :: web.select_order (tl ticks) events.
Proof. reflexivity. Qed.

Lemma not_ping_frames {I : Imports} (ticks : list nat) (events : list LogEvent) :
  filter not_ping
    (writes (concat (map web.stream_select (web.select_order ticks events)))) =
  writes (concat (map web.stream_select (web.select_order [] events))).
Proof.
  revert ticks. induction events as [|event events IH]; intros ticks.
  - simpl. rewrite app_nil_r. apply not_ping_ticks.
  - unfold trace in *.
    rewrite select_order_cons, concat_map_app, writes_app, filter_app.
    rewrite not_ping_ticks.
    change (concat (map web.stream_select
                      (web.recv_event event :: web.select_order (tl ticks) events)))
      with (web.stream_event event ++
            concat (map web.stream_select (web.select_order (tl ticks) events))).
    change (concat (map web.stream_select (web.select_order [] (event :: events))))
      with (web.stream_event event ++
            concat (map web.stream_select (web.select_order [] events))).
    rewrite !writes_app, filter_app, not_ping_event, IH. reflexivity.
Qed.

Lemma not_ping_closing {I : Imports} (container : docker.Container)
    (pending : option (option error)) :
  filter not_ping (writes (web.stream_closing container pending)) =
  writes (web.stream_closing container pending).
Proof. destruct pending as [[[| |msg]|]|]; reflexivity. Qed.

(** X8: the ticks only add ping frames to a live stream: with the ping
    frames removed, what [streamLogs] writes is what it writes when no
    tick is taken at all; no event frame is dropped, changed or reordered
    by the ticker. *)
Theorem ticks_only_add_pings {I : Imports}
    (h : web.handler) (p : web.process) (w : http.ResponseWriter)
    (ticks : list nat) (r : http.Request)
    (container : docker.Container) (reader : docker.Reader) :
  web.stdTypes_of r <> 0 ->
  http.is_Flusher w = true ->
  docker.FindContainer (web.clientFromRequest h r) (http.URLParam r "id")
    = Ok container ->
  docker.ContainerLogs (web.clientFromRequest h r) (docker.ID container)
    (web.lastEventId_of r) (web.stdTypes_of r) = Ok reader ->
  filter not_ping (writes (web.streamLogs h p w ticks r)) =
  writes (web.streamLogs h p w [] r).
Proof.
  intros Hmask Hflush Hfound Hopen.
  rewrite !(streamLogs_streaming h p w _ r container Hmask Hflush Hfound reader Hopen).
  rewrite !stream_loop_steps, !writes_app.
  change (writes (web.stream_prelude r container)) with (@nil string).
  change (writes (NewTicker ?d :: call_NewEventGenerator ?b :: ?t)) with (writes t).
  rewrite !writes_app, !writes_mem_stats. simpl.
  rewrite !app_nil_r, filter_app, not_ping_frames, not_ping_closing. reflexivity.
Qed.

Lemma ticks_only_add_pings_witness :
  filter not_ping
    (writes (web.streamLogs (I := sample.imports) sample.h_running sample.proc
               sample.flusher [1; 0; 0; 2]%nat sample.resume)) =
  writes (web.streamLogs (I := sample.imports) sample.h_running sample.proc
            sample.flusher [] sample.resume).
Proof.
  apply (ticks_only_add_pings (I := sample.imports) sample.h_running sample.proc
           sample.flusher [1; 0; 0; 2]%nat sample.resume sample.web1 "raw feed").
  - vm_compute. discriminate.
  - reflexivity.
  - reflexivity.
  - reflexivity.
Defined.

(** ** A stream that ends at once *)

(** X9: a live stream on a container that has already stopped and a live
    stream whose generator closes with [io.EOF] before any event or tick
    give the client the same response: status 200, the streaming headers
    and the container-stopped frame as the whole body. *)
Theorem stopped_same_response {I : Imports}
    (h : web.handler) (p : web.process) (w : http.ResponseWriter)
    (ticks : list nat) (r : http.Request) (container : docker.Container) :
  web.stdTypes_of r <> 0 ->
  http.is_Flusher w = true ->
  docker.FindContainer (web.clientFromRequest h r) (http.URLParam r "id")
    = Ok container ->
  let open :=
    docker.ContainerLogs (web.clientFromRequest h r) (docker.ID container)
      (web.lastEventId_of r) (web.stdTypes_of r) in
  let stopped :=
    http.mkResponse http.StatusOK stream_header [http.Bytes web.container_stopped] in
  (open = Err io_EOF -> http.serve (web.streamLogs h p w ticks r) = stopped) /\
  (forall reader,
     open = Ok reader ->
     Events (NewEventGenerator reader (docker.Tty container)) = [] ->
     Errors (NewEventGenerator reader (docker.Tty container)) = Some (Some io_EOF) ->
     hd 0%nat ticks = 0%nat ->
     http.serve (web.streamLogs h p w ticks r) = stopped).
Proof.
  intros Hmask Hflush Hfound open stopped. subst open stopped.
  rewrite (streamLogs_opening h p w ticks r container Hmask Hflush Hfound).
  unfold web.stream_prelude.
  generalize (http.URLParam r "id") as id, (web.lastEventId_of r) as pos,
    (web.stdTypes_of r) as std.
  intros id pos std. split.
  - intros ->. vm_compute. reflexivity.
  - intros reader -> Hevents Herrors Hticks.
    rewrite Hevents, Herrors. simpl web.select_order. rewrite Hticks.
    unfold web.mem_stats. destruct (web.debug_enabled p); vm_compute; reflexivity.
Qed.

Lemma stopped_same_response_witness :
  http.serve (web.streamLogs (I := scenario.ended) sample.h_stopped sample.proc
                sample.flusher [] sample.both)
  = http.serve (web.streamLogs (I := scenario.ended) sample.h_running sample.proc
                  sample.flusher [] sample.both).
Proof.
  assert (Hmask : web.stdTypes_of (I := scenario.ended) sample.both <> 0)
    by (vm_compute; discriminate).
  destruct (stopped_same_response (I := scenario.ended) sample.h_stopped sample.proc
              sample.flusher [] sample.both sample.web1 Hmask eq_refl eq_refl)
    as [Hopen _].
  destruct (stopped_same_response (I := scenario.ended) sample.h_running sample.proc
              sample.flusher [] sample.both sample.web1 Hmask eq_refl eq_refl)
    as [_ Hclosed].
  rewrite (Hopen eq_refl).
  rewrite (Hclosed "" eq_refl eq_refl eq_refl eq_refl). reflexivity.
Defined.

(** ** The body of a download *)

(** X10: a download that finds the container makes exactly one feed-open
    call, whether it succeeds or not: for the identifier of the URL, from
    the zero time to now and with [docker.STDALL], whatever the query says.
    When the feed opens and the name of the member is one gzip accepts, the
    body is a single gzip member with the comment [Logs generated by
    Dozzle], holding the bytes of the feed as they are for a terminal
    container and demultiplexed by [StdCopy] otherwise. *)
Theorem download_body {I : Imports}
    (h : web.handler) (p : web.process) (r : http.Request)
    (container : docker.Container) :
  docker.FindContainer (web.clientFromRequest h r) (http.URLParam r "id")
    = Ok container ->
  filter is_feed_open (web.downloadLogs h p r) =
    [ call_ContainerLogsBetweenDates (http.URLParam r "id") time.zero
        (web.time_Now p) STDALL ] /\
  (forall reader,
     docker.ContainerLogsBetweenDates (web.clientFromRequest h r)
       (http.URLParam r "id") time.zero (web.time_Now p) STDALL = Ok reader ->
     gzip_accepts
       (docker.Name container +:+ "-" +:+
        time.Format_2006_01_02T15_04_05 (web.time_Now p) +:+ ".log") = true ->
     let body := http.Body (http.serve (web.downloadLogs h p r)) in
     length body = 1%nat /\
     gzip_payloads body =
       [if docker.Tty container then reader else stdcopy_StdCopy reader] /\
     gzip_comments body = ["Logs generated by Dozzle"]).
Proof.
  intros Hfound. unfold web.downloadLogs. rewrite Hfound. split.
  - destruct (docker.ContainerLogsBetweenDates _ _ _ _ _) as [reader|err];
      [destruct (docker.Tty container)|]; reflexivity.
  - intros reader Hopen _. rewrite Hopen.
    destruct (docker.Tty container); repeat split.
Qed.

Lemma download_body_witness :
  let t := web.downloadLogs (I := sample.imports) sample.h_running sample.proc
             sample.resume in
  filter is_feed_open t =
    [ call_ContainerLogsBetweenDates "abc" time.zero
        (time.mkTime 2023 4 9 7 5 3 0) 3 ] /\
  length (http.Body (http.serve t)) = 1%nat /\
  gzip_payloads (http.Body (http.serve t)) = ["raw feed"] /\
  gzip_comments (http.Body (http.serve t)) = ["Logs generated by Dozzle"].
Proof.
  destruct (download_body (I := sample.imports) sample.h_running sample.proc
              sample.resume sample.web1 eq_refl) as [Hcall Hbody].
  split; [exact Hcall|].
  apply (Hbody "raw feed"); reflexivity.
Defined.

(** X11: when the feed of a download cannot be opened, the response is 500
    and plain text, but it keeps the [Content-Disposition] header of the
    attachment, and after the error message the body carries an empty gzip
    member: the deferred [zw.Close()] still runs. *)
Theorem download_open_failure_body {I : Imports}
    (h : web.handler) (p : web.process) (r : http.Request)
    (container : docker.Container) (err : error) :
  docker.FindContainer (web.clientFromRequest h r) (http.URLParam r "id")
    = Ok container ->
  docker.ContainerLogsBetweenDates (web.clientFromRequest h r)
    (http.URLParam r "id") time.zero (web.time_Now p) STDALL = Err err ->
  let name :=
    docker.Name container +:+ "-" +:+
    time.Format_2006_01_02T15_04_05 (web.time_Now p) +:+ ".log" in
  http.serve (web.downloadLogs h p r) =
    http.mkResponse http.StatusInternalServerError
      (<["Content-Disposition" :=
           ["attachment; filename=" +:+ docker.Name container +:+ "-" +:+
            time.Format_2006_01_02T15_04_05 (web.time_Now p) +:+ ".log.gz"]]>
         error_header)
      [ http.Bytes (Error err +:+ LF);
        http.Gzip
          {| gzip.Name := name;
             gzip.Comment := "Logs generated by Dozzle";
             gzip.ModTime := web.time_Now p |} "" ].
Proof.
  intros Hfound Hopen name. subst name.
  unfold web.downloadLogs. rewrite Hfound, Hopen.
  generalize (time.Format_2006_01_02T15_04_05 (web.time_Now p)) as stamp,
    (Error err) as msg, (http.URLParam r "id") as id, (web.time_Now p) as now,
    (docker.Name container) as name.
  intros stamp msg id now name. vm_compute. reflexivity.
Qed.

Lemma download_open_failure_body_witness :
  http.Body
    (http.serve (web.downloadLogs (I := sample.imports) sample.h_stopped
                   sample.proc sample.unknown)) =
  [ http.Bytes ("connection refused" +:+ LF);
    http.Gzip
      {| gzip.Name := "web-2023-04-09T07-05-03.log";
         gzip.Comment := "Logs generated by Dozzle";
         gzip.ModTime := time.mkTime 2023 4 9 7 5 3 0 |} "" ].
Proof.
  rewrite (download_open_failure_body (I := sample.imports) sample.h_stopped
             sample.proc sample.unknown sample.web1
             (errorString "connection refused") eq_refl eq_refl).
  reflexivity.
Defined.

(** X12: when the container lookup of a download fails, the response is
    400 with the error message as a plain-text body and nothing else: no
    attachment header, no gzip member, and no feed is opened. *)
Theorem download_unknown_container {I : Imports}
    (h : web.handler) (p : web.process) (r : http.Request) (err : error) :
  docker.FindContainer (web.clientFromRequest h r) (http.URLParam r "id")
    = Err err ->
  http.serve (web.downloadLogs h p r) =
    http.mkResponse http.StatusBadRequest error_header
      [http.Bytes (Error err +:+ LF)] /\
  filter is_call (web.downloadLogs h p r) =
    [call_FindContainer (http.URLParam r "id")].
Proof.
  intros Hfound. unfold web.downloadLogs. rewrite Hfound.
  generalize (Error err) as msg, (http.URLParam r "id") as id.
  intros msg id. vm_compute. split; reflexivity.
Qed.

Lemma download_unknown_container_witness :
  http.serve (web.downloadLogs (I := sample.imports) sample.h_running sample.proc
                sample.unknown)
  = http.mkResponse 400 error_header
      [http.Bytes ("Unable to find container" +:+ LF)].
Proof.
  apply (download_unknown_container (I := sample.imports) sample.h_running
           sample.proc sample.unknown (errorString "Unable to find container")).
  reflexivity.
Defined.

(** ** What no run of a handler does *)

Lemma stream_body_ticker {I : Imports} (order : list (web.selected LogEvent))
    (container : docker.Container) (pending : option (option error))
    (p : web.process) :
  Forall (fun e => is_io e = true)
    (web.stream_loop order ++ web.stream_closing container pending ++
     web.mem_stats p).
Proof.
  repeat (apply Forall_app; split).
  - apply stream_loop_io.
  - apply stream_closing_io.
  - apply mem_stats_io.
Qed.

(** X13: in every run of [streamLogs] the ticker is either never created,
    or created once with a period of 5 seconds and stopped once, the stop
    being the last thing the handler does. *)
Theorem ticker_stopped {I : Imports}
    (h : web.handler) (p : web.process) (w : http.ResponseWriter)
    (ticks : list nat) (r : http.Request) :
  let t := web.streamLogs h p w ticks r in
  (filter is_NewTicker t = [] /\ filter is_ticker_Stop t = []) \/
  (filter is_NewTicker t = [NewTicker (5 * time.Second)] /\
   filter is_ticker_Stop t = [ticker_Stop] /\
   last t = Some ticker_Stop).
Proof.
  intros t. subst t. unfold web.streamLogs.
  destruct (web.stdTypes_of r =? 0); [left; split; reflexivity|].
  destruct (http.is_Flusher w); simpl negb; cbv iota;
    [|left; split; reflexivity].
  destruct (docker.FindContainer _ _) as [container|err];
    [|left; split; reflexivity].
  destruct (docker.ContainerLogs _ _ _ _) as [reader|err].
  - right.
    set (order := web.select_order ticks
                    (Events (NewEventGenerator reader (docker.Tty container)))).
    set (pending := Errors (NewEventGenerator reader (docker.Tty container))).
    pose proof (stream_body_ticker order container pending p) as Hio.
    unfold trace in *.
    replace (web.stream_loop order ++ web.stream_closing container pending ++
             web.mem_stats p ++ [ticker_Stop])
      with ((web.stream_loop order ++ web.stream_closing container pending ++
             web.mem_stats p) ++ [ticker_Stop])
      by (rewrite <- !app_assoc; reflexivity).
    set (body := web.stream_loop order ++
                 web.stream_closing container pending ++ web.mem_stats p) in *.
    assert (Hnew : filter is_NewTicker body = []).
    { apply filter_io; [|exact Hio].
      intros e He. destruct e; try discriminate He; reflexivity. }
    assert (Hstop : filter is_ticker_Stop body = []).
    { apply filter_io; [|exact Hio].
      intros e He. destruct e; try discriminate He; reflexivity. }
    split; [|split].
    + change (filter is_NewTicker (?a :: ?b :: ?c :: ?d :: ?e :: ?f :: ?g ::
                                   ?n :: ?m :: ?l))
        with (n :: filter is_NewTicker l).
      unfold trace in *. rewrite filter_app, Hnew. reflexivity.
    + change (filter is_ticker_Stop (?a :: ?b :: ?c :: ?d :: ?e :: ?f :: ?g ::
                                     ?n :: ?m :: ?l))
        with (filter is_ticker_Stop l).
      unfold trace in *. rewrite filter_app, Hstop. reflexivity.
    + rewrite !app_comm_cons. apply last_snoc.
  - left. destruct (decide (err = io_EOF)); split; reflexivity.
Qed.

(** X14: in every run of the three handlers the calls follow one order:
    none at all, or the container lookup first, then at most one feed-open
    call, then at most one event generator.  No handler opens a feed
    without a lookup before it, opens two feeds, or starts a generator
    without a feed. *)
Theorem calls_in_order {I : Imports}
    (h : web.handler) (p : web.process) (w : http.ResponseWriter)
    (ticks : list nat) (r : http.Request) :
  call_order_ok (filter is_call (web.downloadLogs h p r)) = true /\
  call_order_ok (filter is_call (web.fetchLogsBetweenDates h r)) = true /\
  call_order_ok (filter is_call (web.streamLogs h p w ticks r)) = true.
Proof.
  assert (Hcall : forall e, is_io e = true -> is_call e = false).
  { intros e He. destruct e; try discriminate He; reflexivity. }
  split; [|split].
  - unfold web.downloadLogs.
    destruct (docker.FindContainer _ _) as [container|err]; [|reflexivity].
    destruct (docker.ContainerLogsBetweenDates _ _ _ _ _) as [reader|err];
      [destruct (docker.Tty container)|]; reflexivity.
  - unfold web.fetchLogsBetweenDates.
    destruct (web.stdTypes_of r =? 0); [reflexivity|].
    destruct (docker.FindContainer _ _) as [container|err]; [|reflexivity].
    destruct (docker.ContainerLogsBetweenDates _ _ _ _ _) as [reader|err];
      [|reflexivity].
    change (filter is_call (?a :: ?b :: ?c :: ?d :: ?l))
      with (b :: c :: d :: filter is_call l).
    rewrite (filter_io is_call _ Hcall (range_loop_io _)). reflexivity.
  - unfold web.streamLogs.
    destruct (web.stdTypes_of r =? 0); [reflexivity|].
    destruct (http.is_Flusher w); simpl negb; cbv iota; [|reflexivity].
    destruct (docker.FindContainer _ _) as [container|err]; [|reflexivity].
    destruct (docker.ContainerLogs _ _ _ _) as [reader|err].
    + change (filter is_call (?a :: ?b :: ?c :: ?d :: ?e :: ?f :: ?g ::
                              ?n :: ?m :: ?l))
        with (a :: g :: m :: filter is_call l).
      unfold trace in *. rewrite !filter_app.
      rewrite (filter_io is_call _ Hcall (stream_loop_io _)).
      rewrite (filter_io is_call _ Hcall (stream_closing_io _ _)).
      rewrite (filter_io is_call _ Hcall (mem_stats_io _)). reflexivity.
    + destruct (decide (err = io_EOF)); reflexivity.
Qed.

(** ** The lines of a live stream *)

Lemma lines_of_ticks {I : Imports} (f : string -> bool) (n : nat) :
  f (":ping " +:+ LF +:+ LF) = false ->
  filter f (writes (concat (map web.stream_select (replicate n web.recv_tick)))) = [].
Proof.
  intros Hf. induction n as [|n IH]; [reflexivity|].
  simpl. rewrite filter_cons, Hf. exact IH.
Qed.

Lemma lines_of_frames {I : Imports} (f : string -> bool)
    (lines : list LogEvent -> list string)
    (ticks : list nat) (events : list LogEvent) :
  f (":ping " +:+ LF +:+ LF) = false ->
  lines [] = [] ->
  (forall event events',
     filter f (writes (web.stream_event event)) ++ lines events'
     = lines (event :: events')) ->
  filter f (writes (concat (map web.stream_select (web.select_order ticks events))))
  = lines events.
Proof.
  intros Hping Hnil Hcons. revert ticks.
  induction events as [|event events IH]; intros ticks; unfold trace in *.
  - simpl. rewrite app_nil_r, Hnil. apply lines_of_ticks, Hping.
  - rewrite select_order_cons, concat_map_app, writes_app, filter_app.
    rewrite (lines_of_ticks f _ Hping).
    change (concat (map web.stream_select
                      (web.recv_event event :: web.select_order (tl ticks) events)))
      with (web.stream_event event ++
            concat (map web.stream_select (web.select_order (tl ticks) events))).
    rewrite writes_app, filter_app, IH. apply Hcons.
Qed.

Lemma prefix_empty (s : string) : String.prefix "" s = true.
Proof. destruct s; reflexivity. Qed.

Lemma data_line_data (s : string) : is_data_line ("data: " +:+ s) = true.
Proof. unfold is_data_line. simpl. apply prefix_empty. Qed.

Lemma id_line_id (s : string) : is_id_line ("id: " +:+ s) = true.
Proof. unfold is_id_line. simpl. apply prefix_empty. Qed.

Lemma data_lines_of_event {I : Imports} (event : LogEvent) :
  filter is_data_line (writes (web.stream_event event)) =
  match json_Marshal event with
  | Ok buf => ["data: " +:+ buf +:+ LF]
  | Err _ => []
  end.
Proof.
  unfold web.stream_event.
  destruct (json_Marshal event), (0 <? Timestamp event); cbn [writes app];
    rewrite ?filter_cons, ?data_line_data; reflexivity.
Qed.

Lemma id_lines_of_event {I : Imports} (event : LogEvent) :
  filter is_id_line (writes (web.stream_event event)) =
  if 0 <? Timestamp event
  then ["id: " +:+ fmt_d (Timestamp event) +:+ LF]
  else [].
Proof.
  unfold web.stream_event.
  destruct (json_Marshal event), (0 <? Timestamp event); cbn [writes app];
    rewrite ?filter_cons, ?id_line_id; reflexivity.
Qed.

(** X15: on a live stream, whatever the ticks, the data lines written are
    the encodings of the events that encode, each once and in the order of
    the generator, and the id lines are those of the events whose timestamp
    is greater than zero, in that order too, whether they encode or not. *)
Theorem stream_lines {I : Imports}
    (h : web.handler) (p : web.process) (w : http.ResponseWriter)
    (ticks : list nat) (r : http.Request)
    (container : docker.Container) (reader : docker.Reader) :
  web.stdTypes_of r <> 0 ->
  http.is_Flusher w = true ->
  docker.FindContainer (web.clientFromRequest h r) (http.URLParam r "id")
    = Ok container ->
  docker.ContainerLogs (web.clientFromRequest h r) (docker.ID container)
    (web.lastEventId_of r) (web.stdTypes_of r) = Ok reader ->
  let events := Events (NewEventGenerator reader (docker.Tty container)) in
  filter is_data_line (writes (web.streamLogs h p w ticks r)) =
    map (String.append "data: ") (encoded_lines events) /\
  filter is_id_line (writes (web.streamLogs h p w ticks r)) = id_lines events.
Proof.
  intros Hmask Hflush Hfound Hopen events.
  rewrite (streamLogs_streaming h p w ticks r container Hmask Hflush Hfound reader Hopen).
  fold events.
  rewrite stream_loop_steps, !writes_app.
  change (writes (web.stream_prelude r container)) with (@nil string).
  change (writes (NewTicker ?d :: call_NewEventGenerator ?b :: ?t)) with (writes t).
  rewrite !writes_app, writes_mem_stats. simpl app.
  rewrite !app_nil_r, !filter_app.
  assert (Hclosing : forall f : string -> bool,
            f web.container_stopped = false ->
            filter f (writes (web.stream_closing container
                                (Errors (NewEventGenerator reader (docker.Tty container)))))
            = []).
  { intros f Hf.
    destruct (Errors _) as [[[| |msg]|]|]; try reflexivity.
    simpl. rewrite filter_cons, Hf. reflexivity. }
  rewrite !Hclosing, !app_nil_r by reflexivity.
  split.
  - apply (lines_of_frames is_data_line
             (fun events => map (String.append "data: ") (encoded_lines events)));
      [reflexivity | reflexivity |].
    intros event events'. rewrite data_lines_of_event.
    unfold encoded_lines. simpl omap.
    destruct (json_Marshal event); reflexivity.
  - apply (lines_of_frames is_id_line id_lines); [reflexivity | reflexivity |].
    intros event events'. rewrite id_lines_of_event.
    unfold id_lines. simpl omap.
    destruct (0 <? Timestamp event); reflexivity.
Qed.

Lemma stream_lines_witness :
  let t := web.streamLogs (I := sample.imports) sample.h_running sample.proc
             sample.flusher [1; 0; 0; 2]%nat sample.resume in
  filter is_data_line (writes t) = ["data: {}" +:+ LF; "data: {}" +:+ LF] /\
  filter is_id_line (writes t) = ["id: 5" +:+ LF; "id: 7" +:+ LF].
Proof.
  apply (stream_lines (I := sample.imports) sample.h_running sample.proc
           sample.flusher [1; 0; 0; 2]%nat sample.resume sample.web1 "raw feed").
  - vm_compute. discriminate.
  - reflexivity.
  - reflexivity.
  - reflexivity.
Defined.
